(** * A shallow embedding of the ai-saas API services (NestJS + Prisma).

    The relational store accessed through Prisma is a record of [gmap]s, one
    per table, keyed by primary key (the [Usage] table by its compound key
    [(tenantId, month)]).  A service method is a computation in a small
    state-and-exception monad [M]: it reads and writes the store and may
    throw.  As in JavaScript, a throw does not undo the writes performed
    before it; only [prisma_transaction] rolls back.  Values that the code
    obtains from the environment ([Date.now()], [uuidv4()], the current
    month, the result of the OpenAI call, the Stripe event) are explicit
    arguments. *)

From Stdlib Require Import String Ascii List Bool Arith ZArith Lia QArith_base.
From stdpp Require Import base gmap strings.

Local Open Scope nat_scope.
Local Set Warnings "-abstract-large-number".

(* ------------------------------------------------------------------ *)
(** ** Shared types ([@ai-saas/shared-types]) *)

Inductive BillingPlan := FREE | STARTER | PRO | ENTERPRISE.

Inductive SubscriptionStatus :=
  ACTIVE | CANCELED | INCOMPLETE | INCOMPLETE_EXPIRED | PAST_DUE | TRIALING | UNPAID.

Inductive UserRole := ADMIN | USER.

Inductive AiServiceType :=
  TEXT_SUMMARIZATION | DOCUMENT_QA | TEXT_GENERATION | SENTIMENT_ANALYSIS.

Inductive AiRequestStatus := PENDING | PROCESSING | COMPLETED | FAILED.

#[global] Instance BillingPlan_eq_dec : EqDecision BillingPlan.
Proof. solve_decision. Defined.
#[global] Instance SubscriptionStatus_eq_dec : EqDecision SubscriptionStatus.
Proof. solve_decision. Defined.
#[global] Instance UserRole_eq_dec : EqDecision UserRole.
Proof. solve_decision. Defined.
#[global] Instance AiServiceType_eq_dec : EqDecision AiServiceType.
Proof. solve_decision. Defined.
#[global] Instance AiRequestStatus_eq_dec : EqDecision AiRequestStatus.
Proof. solve_decision. Defined.

Record PlanFeatures := {
  aiCreditsPerMonth : nat;
  apiRequestsPerMinute : nat;
  maxTeamMembers : nat;
}.

(** [PLAN_FEATURES] (the boolean feature flags are left out). *)
Definition PLAN_FEATURES (p : BillingPlan) : PlanFeatures :=
  match p with
  | FREE => {| aiCreditsPerMonth := 100; apiRequestsPerMinute := 10; maxTeamMembers := 1 |}
  | STARTER => {| aiCreditsPerMonth := 1000; apiRequestsPerMinute := 50; maxTeamMembers := 5 |}
  | PRO => {| aiCreditsPerMonth := 10000; apiRequestsPerMinute := 200; maxTeamMembers := 25 |}
  | ENTERPRISE => {| aiCreditsPerMonth := 100000; apiRequestsPerMinute := 1000; maxTeamMembers := 100 |}
  end.

Definition AI_SERVICE_CREDITS (t : AiServiceType) : nat :=
  match t with
  | TEXT_SUMMARIZATION => 2
  | DOCUMENT_QA => 3
  | TEXT_GENERATION => 5
  | SENTIMENT_ANALYSIS => 1
  end.

(* ------------------------------------------------------------------ *)
(** ** Rows of the relational store *)

(** [Tenant.settings] is a JSON blob; a field absent from it is [None]. *)
Record TenantSettings := {
  aiCreditsLimit : option nat;
  apiRateLimit : option nat;
  customBranding : option string;
}.

Record Tenant := {
  tenant_id : string;
  tenant_name : string;
  slug : string;
  plan : BillingPlan;
  tenant_isActive : bool;
  settings : TenantSettings;
}.

Record User := {
  user_id : string;
  email : string;
  name : string;
  password : string;
  role : UserRole;
  user_tenantId : string;
  avatar : option string;
  isActive : bool;
}.

Record TeamMember := {
  tm_id : string;
  tm_userId : string;
  tm_tenantId : string;
  tm_role : UserRole;
  invitedBy : string;
}.

Record Subscription := {
  sub_id : string;
  sub_tenantId : string;
  stripeCustomerId : option string;
  stripeSubscriptionId : option string;
  sub_plan : BillingPlan;
  status : SubscriptionStatus;
  currentPeriodStart : Z;
  currentPeriodEnd : Z;
  cancelAtPeriodEnd : bool;
}.

Record Usage := {
  usage_tenantId : string;
  month : string;
  aiCreditsUsed : nat;
  apiRequestsCount : nat;
}.

Record AiRequest := {
  ar_id : string;
  ar_tenantId : string;
  ar_userId : string;
  ar_type : AiServiceType;
  input : string;
  output : option string;
  ar_status : AiRequestStatus;
  creditsUsed : nat;
  processingTimeMs : option Z;
  errorMessage : option string;
}.

Record WebhookEvent := {
  we_id : string;
  we_type : string;
  we_data : string;
  processed : bool;
}.

Record DB := {
  tenants : gmap string Tenant;
  users : gmap string User;
  teamMembers : gmap string TeamMember;
  subscriptions : gmap string Subscription;
  usages : gmap (string * string) Usage;
  aiRequests : gmap string AiRequest;
  webhookEvents : gmap string WebhookEvent;
  (** the number of rows ever created in [WebhookEvent]; it feeds the
      column default that generates the id of a row created without one *)
  webhookEvents_created : nat;
}.

(* ------------------------------------------------------------------ *)
(** ** Exceptions and the service monad *)

Inductive Exn :=
  | TypeError (msg : string)                 (** a JavaScript [TypeError] *)
  | BadRequest (msg : string)
  | NotFound (msg : string)
  | Conflict (msg : string)
  | Forbidden (msg : string)
  | Unauthorized (msg : string)
  | PlainError (msg : string)                (** [new Error(msg)] *)
  | PrismaRecordNotFound                     (** Prisma P2025 *)
  | PrismaUniqueViolation.                   (** Prisma P2002 *)

(** [error.message] *)
Definition exn_message (e : Exn) : string :=
  match e with
  | TypeError m | BadRequest m | NotFound m | Conflict m
  | Forbidden m | Unauthorized m | PlainError m => m
  | PrismaRecordNotFound => "Record to update not found."
  | PrismaUniqueViolation => "Unique constraint failed"
  end.

Definition M (A : Type) : Type := DB -> (Exn + A) * DB.

Definition ret {A} (a : A) : M A := fun db => (inr a, db).
Definition bind {A B} (m : M A) (k : A -> M B) : M B :=
  fun db => match m db with
            | (inl e, db') => (inl e, db')
            | (inr a, db') => k a db'
            end.
Definition throw {A} (e : Exn) : M A := fun db => (inl e, db).
(** [try { m } catch (error) { h(error) }]: the handler runs on the store as
    the failing code left it. *)
Definition try_catch {A} (m : M A) (h : Exn -> M A) : M A :=
  fun db => match m db with
            | (inl e, db') => h e db'
            | r => r
            end.
Definition gets {A} (f : DB -> A) : M A := fun db => (inr (f db), db).
Definition modify (f : DB -> DB) : M unit := fun db => (inr tt, f db).

Notation "'let*' x ':=' m 'in' k" := (bind m (fun x => k))
  (at level 200, x name, m at level 100, k at level 200).
Notation "m ;; k" := (bind m (fun _ => k)) (at level 100, right associativity).

(** [prisma.$transaction(fn)]: all or nothing. *)
Definition prisma_transaction {A} (m : M A) : M A :=
  fun db => match m db with
            | (inl e, _) => (inl e, db)
            | r => r
            end.

(** The first row satisfying [p] ([findUnique] on a unique column). *)
Definition find_row {K V} `{Countable K} (p : V -> bool) (m : gmap K V) : option V :=
  match filter (fun kv => p kv.2 = true) (map_to_list m) with
  | [] => None
  | kv :: _ => Some kv.2
  end.

(** Store updates, one per table. *)
Definition set_tenants (f : gmap string Tenant -> gmap string Tenant) (db : DB) : DB :=
  {| tenants := f (tenants db); users := users db; teamMembers := teamMembers db;
     subscriptions := subscriptions db; usages := usages db; aiRequests := aiRequests db;
     webhookEvents := webhookEvents db; webhookEvents_created := webhookEvents_created db |}.
Definition set_users (f : gmap string User -> gmap string User) (db : DB) : DB :=
  {| tenants := tenants db; users := f (users db); teamMembers := teamMembers db;
     subscriptions := subscriptions db; usages := usages db; aiRequests := aiRequests db;
     webhookEvents := webhookEvents db; webhookEvents_created := webhookEvents_created db |}.
Definition set_teamMembers (f : gmap string TeamMember -> gmap string TeamMember) (db : DB) : DB :=
  {| tenants := tenants db; users := users db; teamMembers := f (teamMembers db);
     subscriptions := subscriptions db; usages := usages db; aiRequests := aiRequests db;
     webhookEvents := webhookEvents db; webhookEvents_created := webhookEvents_created db |}.
Definition set_subscriptions (f : gmap string Subscription -> gmap string Subscription) (db : DB) : DB :=
  {| tenants := tenants db; users := users db; teamMembers := teamMembers db;
     subscriptions := f (subscriptions db); usages := usages db; aiRequests := aiRequests db;
     webhookEvents := webhookEvents db; webhookEvents_created := webhookEvents_created db |}.
Definition set_usages (f : gmap (string * string) Usage -> gmap (string * string) Usage) (db : DB) : DB :=
  {| tenants := tenants db; users := users db; teamMembers := teamMembers db;
     subscriptions := subscriptions db; usages := f (usages db); aiRequests := aiRequests db;
     webhookEvents := webhookEvents db; webhookEvents_created := webhookEvents_created db |}.
Definition set_aiRequests (f : gmap string AiRequest -> gmap string AiRequest) (db : DB) : DB :=
  {| tenants := tenants db; users := users db; teamMembers := teamMembers db;
     subscriptions := subscriptions db; usages := usages db; aiRequests := f (aiRequests db);
     webhookEvents := webhookEvents db; webhookEvents_created := webhookEvents_created db |}.
Definition set_webhookEvents (f : gmap string WebhookEvent -> gmap string WebhookEvent)
    (g : nat -> nat) (db : DB) : DB :=
  {| tenants := tenants db; users := users db; teamMembers := teamMembers db;
     subscriptions := subscriptions db; usages := usages db; aiRequests := aiRequests db;
     webhookEvents := f (webhookEvents db); webhookEvents_created := g (webhookEvents_created db) |}.

(* ------------------------------------------------------------------ *)
(** ** Prisma model delegates *)

(** [update] on a missing row throws P2025; [create] on a taken primary key
    throws P2002. *)
Definition tenant_findUnique (id : string) : M (option Tenant) :=
  gets (fun db => tenants db !! id).
Definition tenant_findBySlugRow (s : string) : M (option Tenant) :=
  gets (fun db => find_row (fun t => String.eqb (slug t) s) (tenants db)).
Definition tenant_create (t : Tenant) : M Tenant :=
  let* db := gets id in
  if bool_decide (is_Some (tenants db !! tenant_id t))
     || bool_decide (is_Some (find_row (fun t' => String.eqb (slug t') (slug t)) (tenants db)))
  then throw PrismaUniqueViolation
  else modify (set_tenants (insert (tenant_id t) t)) ;; ret t.
Definition tenant_update (id : string) (f : Tenant -> Tenant) : M Tenant :=
  let* o := tenant_findUnique id in
  match o with
  | None => throw PrismaRecordNotFound
  | Some t => modify (set_tenants (insert id (f t))) ;; ret (f t)
  end.

Definition user_findUnique (id : string) : M (option User) :=
  gets (fun db => users db !! id).
Definition user_findByEmailRow (e : string) : M (option User) :=
  gets (fun db => find_row (fun u => String.eqb (email u) e) (users db)).
Definition user_create (u : User) : M User :=
  let* db := gets id in
  if bool_decide (is_Some (users db !! user_id u))
     || bool_decide (is_Some (find_row (fun u' => String.eqb (email u') (email u)) (users db)))
  then throw PrismaUniqueViolation
  else modify (set_users (insert (user_id u) u)) ;; ret u.

Definition teamMember_create (m : TeamMember) : M TeamMember :=
  let* db := gets id in
  if bool_decide (is_Some (teamMembers db !! tm_id m))
  then throw PrismaUniqueViolation
  else modify (set_teamMembers (insert (tm_id m) m)) ;; ret m.

Definition subscription_create (s : Subscription) : M Subscription :=
  let* db := gets id in
  if bool_decide (is_Some (subscriptions db !! sub_id s))
     || bool_decide (is_Some (find_row (fun s' => String.eqb (sub_tenantId s') (sub_tenantId s))
                                       (subscriptions db)))
  then throw PrismaUniqueViolation
  else modify (set_subscriptions (insert (sub_id s) s)) ;; ret s.
Definition subscription_findByStripeId (sid : string) : M (option Subscription) :=
  gets (fun db => find_row (fun s => bool_decide (stripeSubscriptionId s = Some sid))
                           (subscriptions db)).
Definition subscription_update (id : string) (f : Subscription -> Subscription) : M Subscription :=
  let* o := gets (fun db => subscriptions db !! id) in
  match o with
  | None => throw PrismaRecordNotFound
  | Some s => modify (set_subscriptions (insert id (f s))) ;; ret (f s)
  end.

Definition usage_findUnique (tenantId month : string) : M (option Usage) :=
  gets (fun db => usages db !! (tenantId, month)).

Definition aiRequest_create (r : AiRequest) : M AiRequest :=
  let* db := gets id in
  if bool_decide (is_Some (aiRequests db !! ar_id r))
  then throw PrismaUniqueViolation
  else modify (set_aiRequests (insert (ar_id r) r)) ;; ret r.
Definition aiRequest_update (id : string) (f : AiRequest -> AiRequest) : M AiRequest :=
  let* o := gets (fun db => aiRequests db !! id) in
  match o with
  | None => throw PrismaRecordNotFound
  | Some r => modify (set_aiRequests (insert id (f r))) ;; ret (f r)
  end.

(* ------------------------------------------------------------------ *)
(** ** TenantsService *)

Definition TenantsService_findById (id : string) : M (option Tenant) := tenant_findUnique id.
Definition TenantsService_findBySlug (s : string) : M (option Tenant) := tenant_findBySlugRow s.

Definition with_plan (p : BillingPlan) (t : Tenant) : Tenant :=
  {| tenant_id := tenant_id t; tenant_name := tenant_name t; slug := slug t; plan := p;
     tenant_isActive := tenant_isActive t; settings := settings t |}.
Definition with_settings (s : TenantSettings) (t : Tenant) : Tenant :=
  {| tenant_id := tenant_id t; tenant_name := tenant_name t; slug := slug t; plan := plan t;
     tenant_isActive := tenant_isActive t; settings := s |}.

Definition updateSettings (id : string) (s : TenantSettings) : M Tenant :=
  let* tenant := TenantsService_findById id in
  match tenant with
  | None => throw (NotFound "Tenant not found")
  | Some _ => tenant_update id (with_settings s)
  end.

Definition updatePlan (id : string) (p : BillingPlan) : M Tenant :=
  let* tenant := TenantsService_findById id in
  match tenant with
  | None => throw (NotFound "Tenant not found")
  | Some _ => tenant_update id (with_plan p)
  end.

(** JavaScript [x || d] on a number that may be undefined: [0] is falsy. *)
Definition or_default (x : option nat) (d : nat) : nat :=
  match x with
  | Some (S n) => S n
  | _ => d
  end.

Record TenantUsage := {
  currentMonth : string;
  tu_aiCreditsUsed : nat;
  tu_apiRequestsCount : nat;
  tu_aiCreditsLimit : nat;
  tu_apiRateLimit : nat;
}.

(** [getTenantUsage]; [currentMonth] is [new Date().toISOString().slice(0, 7)]. *)
Definition getTenantUsage (id currentMonth : string) : M TenantUsage :=
  let* tenant := TenantsService_findById id in
  match tenant with
  | None => throw (NotFound "Tenant not found")
  | Some t =>
      let* usage := usage_findUnique id currentMonth in
      let s := settings t in
      ret {| currentMonth := currentMonth;
             tu_aiCreditsUsed := or_default (aiCreditsUsed <$> usage) 0;
             tu_apiRequestsCount := or_default (apiRequestsCount <$> usage) 0;
             tu_aiCreditsLimit := or_default (aiCreditsLimit s) 100;
             tu_apiRateLimit := or_default (apiRateLimit s) 10 |}
  end.

(** [incrementUsage]: [prisma.usage.upsert] on [(tenantId, month)]. *)
Definition incrementUsage (tenantId : string) (aiCredits apiRequests : nat)
    (currentMonth : string) : M unit :=
  modify (set_usages (fun us =>
    match us !! (tenantId, currentMonth) with
    | Some u =>
        <[(tenantId, currentMonth) :=
            {| usage_tenantId := usage_tenantId u; month := month u;
               aiCreditsUsed := aiCreditsUsed u + aiCredits;
               apiRequestsCount := apiRequestsCount u + apiRequests |}]> us
    | None =>
        <[(tenantId, currentMonth) :=
            {| usage_tenantId := tenantId; month := currentMonth;
               aiCreditsUsed := aiCredits; apiRequestsCount := apiRequests |}]> us
    end)).

(* ------------------------------------------------------------------ *)
(** ** String helpers (JavaScript [String.prototype], on ASCII text) *)

Fixpoint starts_with (pre s : string) : bool :=
  match pre, s with
  | EmptyString, _ => true
  | String c pre', String d s' => Ascii.eqb c d && starts_with pre' s'
  | String _ _, EmptyString => false
  end.

(** [s.includes(sub)] *)
Fixpoint includes (s sub : string) : bool :=
  starts_with sub s ||
  match s with
  | EmptyString => false
  | String _ s' => includes s' sub
  end.

Definition is_upper (c : ascii) : bool :=
  (65 <=? nat_of_ascii c) && (nat_of_ascii c <=? 90).
Definition lower_char (c : ascii) : ascii :=
  if is_upper c then ascii_of_nat (nat_of_ascii c + 32) else c.

(** [s.toLowerCase()] *)
Fixpoint toLowerCase (s : string) : string :=
  match s with
  | EmptyString => EmptyString
  | String c s' => String (lower_char c) (toLowerCase s')
  end.

(** The ASCII characters of the [\s] class and of [String.prototype.trim]:
    tab, line feed, vertical tab, form feed, carriage return, space. *)
Definition is_space (c : ascii) : bool :=
  let n := nat_of_ascii c in ((9 <=? n) && (n <=? 13)) || (n =? 32).

Fixpoint trim_start (s : string) : string :=
  match s with
  | String c s' => if is_space c then trim_start s' else s
  | EmptyString => EmptyString
  end.
Definition string_rev (s : string) : string :=
  string_of_list_ascii (rev (list_ascii_of_string s)).
(** [s.trim()] *)
Definition trim (s : string) : string :=
  string_rev (trim_start (string_rev (trim_start s))).

(** [s.split(sep)] where [sep] matches every maximal run of characters
    satisfying [p] ([p] = one character, or a class followed by [+]). *)
Fixpoint split_runs (p : ascii -> bool) (in_run : bool) (cur : string) (s : string)
    : list string :=
  match s with
  | EmptyString => [string_rev cur]
  | String c s' =>
      if p c then
        if in_run then split_runs p true cur s'
        else string_rev cur :: split_runs p true EmptyString s'
      else split_runs p false (String c cur) s'
  end.

(** [s.split(' ')]: every single space separates. *)
Fixpoint split_char (sep : ascii) (cur : string) (s : string) : list string :=
  match s with
  | EmptyString => [string_rev cur]
  | String c s' =>
      if Ascii.eqb c sep then string_rev cur :: split_char sep EmptyString s'
      else split_char sep (String c cur) s'
  end.

(* ------------------------------------------------------------------ *)
(** ** AiService *)

Record TextSummarizationRequest := {
  text : string;
  maxLength : option nat;
  style : option string;
}.

Record TextSummarizationResponse := {
  summary : string;
  originalLength : nat;
  summaryLength : nat;
  resp_creditsUsed : nat;
}.

Record DocumentQaRequest := {
  documentText : string;
  question : string;
  context : option string;
}.

Record DocumentQaResponse := {
  answer : string;
  confidence : Q;
  sourceText : option string;
  qa_creditsUsed : nat;
}.

(** The outcome of [openai.chat.completions.create(...)]: the promise
    resolves with [choices[0]?.message?.content] (absent: [None]) or
    rejects with an error carrying a message. *)
Inductive Completion :=
  | CompletionResolves (content : option string)
  | CompletionRejects (message : string).

(** What one call of a gateway method reads from its environment: the
    successive values of [Date.now()], the [uuidv4()] of the AiRequest
    row, [JSON.stringify(request)], the current month and the outcome of
    the OpenAI call. *)
Record CallEnv := {
  now_start : Z;
  now_done : Z;
  now_failed : Z;
  request_uuid : string;
  request_json : string;
  env_month : string;
  completion : Completion;
}.

Definition openai_create (c : Completion) : M string :=
  match c with
  | CompletionResolves content => ret (default "" content)
  | CompletionRejects msg => throw (PlainError msg)
  end.

(** [@nestjs/common] exports no [PaymentRequiredException]: the named
    import of [ai.service.ts] is [undefined], so the refusal branch
    [throw new PaymentRequiredException('Insufficient AI credits. ...')]
    fails while evaluating [new], with a [TypeError] (the module is compiled
    to CommonJS, where the import reads [common_1.PaymentRequiredException]). *)
Definition PaymentRequiredException_not_a_constructor : string :=
  "common_1.PaymentRequiredException is not a constructor".

(** [checkCredits] *)
Definition checkCredits (tenantId : string) (creditsRequired : nat) (currentMonth : string)
    : M unit :=
  let* usage := getTenantUsage tenantId currentMonth in
  if tu_aiCreditsLimit usage <? tu_aiCreditsUsed usage + creditsRequired
  then throw (TypeError PaymentRequiredException_not_a_constructor)
  else ret tt.

Definition completed_with (out : string) (ms : Z) (r : AiRequest) : AiRequest :=
  {| ar_id := ar_id r; ar_tenantId := ar_tenantId r; ar_userId := ar_userId r;
     ar_type := ar_type r; input := input r; output := Some out; ar_status := COMPLETED;
     creditsUsed := creditsUsed r; processingTimeMs := Some ms; errorMessage := errorMessage r |}.
Definition failed_with (msg : string) (ms : Z) (r : AiRequest) : AiRequest :=
  {| ar_id := ar_id r; ar_tenantId := ar_tenantId r; ar_userId := ar_userId r;
     ar_type := ar_type r; input := input r; output := output r; ar_status := FAILED;
     creditsUsed := creditsUsed r; processingTimeMs := Some ms; errorMessage := Some msg |}.

(** Steps 1-3 shared by both gateway methods: credit check, then the
    [processing] row. *)
Definition processing_row (tenantId userId : string) (ty : AiServiceType) (env : CallEnv)
    : AiRequest :=
  {| ar_id := request_uuid env; ar_tenantId := tenantId; ar_userId := userId;
     ar_type := ty; input := request_json env; output := None;
     ar_status := PROCESSING; creditsUsed := AI_SERVICE_CREDITS ty;
     processingTimeMs := None; errorMessage := None |}.

Definition create_processing_row (tenantId userId : string) (ty : AiServiceType)
    (env : CallEnv) : M AiRequest :=
  let creditsRequired := AI_SERVICE_CREDITS ty in
  checkCredits tenantId creditsRequired (env_month env) ;;
  aiRequest_create (processing_row tenantId userId ty env).

Definition summarizeText (tenantId userId : string) (request : TextSummarizationRequest)
    (env : CallEnv) : M TextSummarizationResponse :=
  let creditsRequired := AI_SERVICE_CREDITS TEXT_SUMMARIZATION in
  let startTime := now_start env in
  let* aiRequest := create_processing_row tenantId userId TEXT_SUMMARIZATION env in
  try_catch
    (let* summary := openai_create (completion env) in
     let processingTime := (now_done env - startTime)%Z in
     aiRequest_update (ar_id aiRequest) (completed_with summary processingTime) ;;
     incrementUsage tenantId creditsRequired 1 (env_month env) ;;
     ret {| summary := summary; originalLength := String.length (text request);
            summaryLength := String.length summary; resp_creditsUsed := creditsRequired |})
    (fun error =>
       aiRequest_update (ar_id aiRequest)
         (failed_with (exn_message error) (now_failed env - startTime)%Z) ;;
       throw (BadRequest "Failed to summarize text")).

(** [calculateConfidence] *)
Definition calculateConfidence (answer : string) : Q :=
  if includes answer "cannot find" || includes answer "not mentioned" then 1 # 10
  else if includes answer "specifically states" || includes answer "according to" then 9 # 10
  else 7 # 10.

Definition is_sentence_end (c : ascii) : bool :=
  Ascii.eqb c "." || Ascii.eqb c "!" || Ascii.eqb c "?".

(** [extractSourceText] *)
Definition extractSourceText (document answer : string) : option string :=
  let sentences := split_runs is_sentence_end false EmptyString document in
  let answerWords := firstn 5 (split_char " " EmptyString (toLowerCase answer)) in
  match List.find (fun sentence =>
                     existsb (fun word => includes (toLowerCase sentence) word) answerWords)
                  sentences with
  | Some sentence => Some (trim sentence)
  | None => None
  end.

Definition answerQuestion (tenantId userId : string) (request : DocumentQaRequest)
    (env : CallEnv) : M DocumentQaResponse :=
  let creditsRequired := AI_SERVICE_CREDITS DOCUMENT_QA in
  let startTime := now_start env in
  let* aiRequest := create_processing_row tenantId userId DOCUMENT_QA env in
  try_catch
    (let* answer := openai_create (completion env) in
     let processingTime := (now_done env - startTime)%Z in
     let confidence := calculateConfidence answer in
     aiRequest_update (ar_id aiRequest) (completed_with answer processingTime) ;;
     incrementUsage tenantId creditsRequired 1 (env_month env) ;;
     ret {| answer := answer; confidence := confidence;
            sourceText := extractSourceText (documentText request) answer;
            qa_creditsUsed := creditsRequired |})
    (fun error =>
       aiRequest_update (ar_id aiRequest)
         (failed_with (exn_message error) (now_failed env - startTime)%Z) ;;
       throw (BadRequest "Failed to answer question")).

(* ------------------------------------------------------------------ *)
(** ** AuthService.register *)

Definition is_lower_alnum (c : ascii) : bool :=
  let n := nat_of_ascii c in ((97 <=? n) && (n <=? 122)) || ((48 <=? n) && (n <=? 57)).
Definition is_hyphen (c : ascii) : bool := Ascii.eqb c "-".

(** *** The tenant name as JavaScript sees it

    A JavaScript string is a sequence of UTF-16 code units.  The tenant name
    reaches [generateSlug] from the JSON request body, which is UTF-8; the
    model keeps the name as those bytes ([string]) and decodes them into
    Unicode code points ([N]) as Node's UTF-8 decoder does, each ill-formed
    sequence (a maximal valid prefix) giving U+FFFD.  A code point above
    U+FFFF is two code units in JavaScript: the regular expressions of
    [generateSlug] have no [u] flag and match code units, but every unit of
    such a pair lies outside [[a-z0-9\s-]], so both units go exactly when the
    filter below drops the code point; and [substring] only ever sees ASCII
    code points (lemma [slug_cps_chars]), where units and code points
    coincide. *)

Definition byte_in (lo hi : N) (b : ascii) : bool :=
  (lo <=? N_of_ascii b)%N && (N_of_ascii b <=? hi)%N.
Definition cont_bits (b : ascii) : N := (N_of_ascii b - 128)%N.

(** UTF-8 decoding with replacement (U+FFFD = 65533). *)
Fixpoint utf8_decode (s : string) : list N :=
  match s with
  | EmptyString => []
  | String b s1 =>
      let n := N_of_ascii b in
      if (n <? 128)%N then n :: utf8_decode s1
      else if byte_in 194 223 b then
        match s1 with
        | String c1 s2 =>
            if byte_in 128 191 c1 then ((n - 192) * 64 + cont_bits c1)%N :: utf8_decode s2
            else 65533%N :: utf8_decode s1
        | EmptyString => [65533%N]
        end
      else if byte_in 224 239 b then
        let lo := if (n =? 224)%N then 160%N else 128%N in
        let hi := if (n =? 237)%N then 159%N else 191%N in
        match s1 with
        | String c1 s2 =>
            if byte_in lo hi c1 then
              match s2 with
              | String c2 s3 =>
                  if byte_in 128 191 c2
                  then ((n - 224) * 4096 + cont_bits c1 * 64 + cont_bits c2)%N :: utf8_decode s3
                  else 65533%N :: utf8_decode s2
              | EmptyString => [65533%N]
              end
            else 65533%N :: utf8_decode s1
        | EmptyString => [65533%N]
        end
      else if byte_in 240 244 b then
        let lo := if (n =? 240)%N then 144%N else 128%N in
        let hi := if (n =? 244)%N then 143%N else 191%N in
        match s1 with
        | String c1 s2 =>
            if byte_in lo hi c1 then
              match s2 with
              | String c2 s3 =>
                  if byte_in 128 191 c2 then
                    match s3 with
                    | String c3 s4 =>
                        if byte_in 128 191 c3
                        then ((n - 240) * 262144 + cont_bits c1 * 4096 + cont_bits c2 * 64
                              + cont_bits c3)%N :: utf8_decode s4
                        else 65533%N :: utf8_decode s3
                    | EmptyString => [65533%N]
                    end
                  else 65533%N :: utf8_decode s2
              | EmptyString => [65533%N]
              end
            else 65533%N :: utf8_decode s1
        | EmptyString => [65533%N]
        end
      else 65533%N :: utf8_decode s1
  end.

(** UTF-8 encoding of the resulting JavaScript string. *)
Fixpoint utf8_encode (s : list N) : string :=
  match s with
  | [] => EmptyString
  | c :: s' =>
      if (c <? 128)%N then String (ascii_of_N c) (utf8_encode s')
      else if (c <? 2048)%N then
        String (ascii_of_N (192 + c / 64)) (String (ascii_of_N (128 + c mod 64)) (utf8_encode s'))
      else if (c <? 65536)%N then
        String (ascii_of_N (224 + c / 4096))
          (String (ascii_of_N (128 + (c / 64) mod 64))
             (String (ascii_of_N (128 + c mod 64)) (utf8_encode s')))
      else
        String (ascii_of_N (240 + c / 262144))
          (String (ascii_of_N (128 + (c / 4096) mod 64))
             (String (ascii_of_N (128 + (c / 64) mod 64))
                (String (ascii_of_N (128 + c mod 64)) (utf8_encode s'))))
  end.

(** [toLowerCase] on one code point, as far as [generateSlug] observes it.
    Unicode's full lowercase mapping sends A-Z to a-z, U+0130 (capital I with
    dot above) to "i" followed by U+0307, and U+212A (Kelvin sign) to "k";
    it fixes a-z, 0-9, "-" and every whitespace code point; and every other
    code point, and whatever it is mapped to (the context of the final sigma
    included), lies outside a-z, 0-9, whitespace and "-".  So [generateSlug]
    drops those code points whether lowercased or not, and the model keeps
    them as they are. *)
Definition toLowerCase_cp (c : N) : list N :=
  if (65 <=? c)%N && (c <=? 90)%N then [(c + 32)%N]
  else if (c =? 304)%N then [105%N; 775%N]
  else if (c =? 8490)%N then [107%N]
  else [c].

(** [s.toLowerCase()] on the code points of [s]. *)
Definition toLowerCase_cps (s : list N) : list N := flat_map toLowerCase_cp s.

(** The [\s] class of JavaScript regular expressions, which is also the set
    [String.prototype.trim] removes: WhiteSpace (tab, vertical tab, form feed,
    U+FEFF and the space separators U+0020, U+00A0, U+1680, U+2000-U+200A,
    U+202F, U+205F, U+3000) and LineTerminator (line feed, carriage return,
    U+2028, U+2029). *)
Definition is_js_space (c : N) : bool :=
  ((9 <=? c)%N && (c <=? 13)%N) || (c =? 32)%N || (c =? 160)%N || (c =? 5760)%N ||
  ((8192 <=? c)%N && (c <=? 8202)%N) || (c =? 8232)%N || (c =? 8233)%N ||
  (c =? 8239)%N || (c =? 8287)%N || (c =? 12288)%N || (c =? 65279)%N.

Definition is_lower_alnum_cp (c : N) : bool :=
  ((97 <=? c)%N && (c <=? 122)%N) || ((48 <=? c)%N && (c <=? 57)%N).
Definition is_hyphen_cp (c : N) : bool := (c =? 45)%N.

(** [s.replace(/[^a-z0-9\s-]/g, '')] *)
Definition strip_disallowed (s : list N) : list N :=
  List.filter (fun c => is_lower_alnum_cp c || is_js_space c || is_hyphen_cp c) s.

Fixpoint trim_start_cps (s : list N) : list N :=
  match s with
  | c :: s' => if is_js_space c then trim_start_cps s' else s
  | [] => []
  end.
(** [s.trim()] on code points. *)
Definition trim_cps (s : list N) : list N := rev (trim_start_cps (rev (trim_start_cps s))).

(** [s.replace(/[\s-]+/g, '-')]; [in_run] tells whether the previous
    character belonged to a replaced run. *)
Fixpoint collapse_runs (in_run : bool) (s : list N) : list N :=
  match s with
  | [] => []
  | c :: s' =>
      if is_js_space c || is_hyphen_cp c then
        if in_run then collapse_runs true s' else 45%N :: collapse_runs true s'
      else c :: collapse_runs false s'
  end.

(** The code points of the slug: [s.substring(0, 50)] keeps the first 50. *)
Definition slug_cps (name : string) : list N :=
  firstn 50 (collapse_runs false (trim_cps (strip_disallowed (toLowerCase_cps (utf8_decode name))))).

(** [generateSlug] *)
Definition generateSlug (name : string) : string := utf8_encode (slug_cps name).

Record RegisterRequest := {
  reg_email : string;
  reg_password : string;
  reg_name : string;
  tenantName : string;
}.

Record AuthResponse := {
  auth_user : User;
  auth_tenant : Tenant;
  accessToken : string;
  refreshToken : string;
}.

(** What one call of [register] reads from its environment: the four
    [uuidv4()] values, the result of [bcrypt.hash(password, 12)],
    [Date.now()] and the two tokens signed by [jwtService.sign]. *)
Record RegisterEnv := {
  tenant_uuid : string;
  user_uuid : string;
  member_uuid : string;
  subscription_uuid : string;
  hashedPassword : string;
  reg_now : Z;
  signed_access : string;
  signed_refresh : string;
}.

Definition UsersService_findByEmail (e : string) : M (option User) := user_findByEmailRow e.

Definition new_tenant (registerRequest : RegisterRequest) (env : RegisterEnv)
    (tenantSlug : string) : Tenant :=
  {| tenant_id := tenant_uuid env; tenant_name := tenantName registerRequest;
     slug := tenantSlug; plan := FREE; tenant_isActive := true;
     settings := {| aiCreditsLimit := Some 100; apiRateLimit := Some 10;
                    customBranding := None |} |}.

Definition new_user (registerRequest : RegisterRequest) (env : RegisterEnv)
    (tenantId : string) : User :=
  {| user_id := user_uuid env; email := reg_email registerRequest;
     name := reg_name registerRequest; password := hashedPassword env;
     role := ADMIN; user_tenantId := tenantId; avatar := None; isActive := true |}.

Definition new_member (env : RegisterEnv) (userId tenantId : string) : TeamMember :=
  {| tm_id := member_uuid env; tm_userId := userId; tm_tenantId := tenantId;
     tm_role := ADMIN; invitedBy := userId |}.

Definition new_subscription (env : RegisterEnv) (tenantId : string) : Subscription :=
  {| sub_id := subscription_uuid env; sub_tenantId := tenantId;
     stripeCustomerId := None; stripeSubscriptionId := None; sub_plan := FREE;
     status := ACTIVE; currentPeriodStart := reg_now env;
     currentPeriodEnd := (reg_now env + 30 * 24 * 60 * 60 * 1000)%Z;
     cancelAtPeriodEnd := false |}.

(** The body passed to [prisma.$transaction] in [register]. *)
Definition register_tx (registerRequest : RegisterRequest) (env : RegisterEnv)
    (tenantSlug : string) : M (User * Tenant) :=
  let* tenant := tenant_create (new_tenant registerRequest env tenantSlug) in
  let* user := user_create (new_user registerRequest env (tenant_id tenant)) in
  teamMember_create (new_member env (user_id user) (tenant_id tenant)) ;;
  subscription_create (new_subscription env (tenant_id tenant)) ;;
  ret (user, tenant).

Definition register (registerRequest : RegisterRequest) (env : RegisterEnv) : M AuthResponse :=
  let* existingUser := UsersService_findByEmail (reg_email registerRequest) in
  match existingUser with
  | Some _ => throw (Conflict "User with this email already exists")
  | None =>
    let tenantSlug := generateSlug (tenantName registerRequest) in
    let* existingTenant := TenantsService_findBySlug tenantSlug in
    match existingTenant with
    | Some _ => throw (Conflict "Organization name is already taken")
    | None =>
      try_catch
        (let* result := prisma_transaction (register_tx registerRequest env tenantSlug) in
         ret {| auth_user := result.1; auth_tenant := result.2;
                accessToken := signed_access env; refreshToken := signed_refresh env |})
        (fun _ => throw (Conflict "Registration failed"))
    end
  end.

(* ------------------------------------------------------------------ *)
(** ** UsersService.updateUser *)

(** One own property of the [data: Partial<User>] payload (the columns of
    the User row, including [password]). *)
Inductive UserField :=
  | F_id (v : string)
  | F_email (v : string)
  | F_name (v : string)
  | F_password (v : string)
  | F_role (v : UserRole)
  | F_tenantId (v : string)
  | F_avatar (v : option string)
  | F_isActive (v : bool).

Definition apply_field (u : User) (f : UserField) : User :=
  let '{| user_id := i; email := e; name := n; password := p; role := r;
          user_tenantId := t; avatar := a; isActive := act |} := u in
  match f with
  | F_id v => {| user_id := v; email := e; name := n; password := p; role := r;
                 user_tenantId := t; avatar := a; isActive := act |}
  | F_email v => {| user_id := i; email := v; name := n; password := p; role := r;
                    user_tenantId := t; avatar := a; isActive := act |}
  | F_name v => {| user_id := i; email := e; name := v; password := p; role := r;
                   user_tenantId := t; avatar := a; isActive := act |}
  | F_password v => {| user_id := i; email := e; name := n; password := v; role := r;
                       user_tenantId := t; avatar := a; isActive := act |}
  | F_role v => {| user_id := i; email := e; name := n; password := p; role := v;
                   user_tenantId := t; avatar := a; isActive := act |}
  | F_tenantId v => {| user_id := i; email := e; name := n; password := p; role := r;
                       user_tenantId := v; avatar := a; isActive := act |}
  | F_avatar v => {| user_id := i; email := e; name := n; password := p; role := r;
                     user_tenantId := t; avatar := v; isActive := act |}
  | F_isActive v => {| user_id := i; email := e; name := n; password := p; role := r;
                       user_tenantId := t; avatar := a; isActive := v |}
  end.

Definition is_password_field (f : UserField) : bool :=
  match f with F_password _ => true | _ => false end.
Definition is_role_field (f : UserField) : bool :=
  match f with F_role _ => true | _ => false end.

(** [prisma.user.update({ where: { id }, data })]; writing [id] moves the
    row to its new key, which must be free. *)
Definition user_update (id : string) (data : list UserField) : M User :=
  let* o := user_findUnique id in
  match o with
  | None => throw PrismaRecordNotFound
  | Some u =>
      let u' := fold_left apply_field data u in
      let* db := gets Datatypes.id in
      if negb (String.eqb (user_id u') id) && bool_decide (is_Some (users db !! user_id u'))
      then throw PrismaUniqueViolation
      else modify (set_users (fun us => <[user_id u' := u']> (delete id us))) ;; ret u'
  end.

Definition updateUser (id tenantId : string) (currentUserRole : UserRole)
    (data : list UserField) : M User :=
  let* user := user_findUnique id in
  match user with
  | None => throw (NotFound "User not found")
  | Some u =>
      if negb (String.eqb (user_tenantId u) tenantId)
      then throw (Forbidden "Cannot update user from different tenant")
      else if existsb is_role_field data && negb (bool_decide (currentUserRole = ADMIN))
      then throw (Forbidden "Only admins can change user roles")
      else
        (* const { password, ...updateData } = data; *)
        let updateData := List.filter (fun f => negb (is_password_field f)) data in
        user_update id updateData
  end.

(* ------------------------------------------------------------------ *)
(** ** BillingService: the webhook reconcilers *)

(** The fields of a [Stripe.Subscription] the handlers read; [metadata]
    entries absent from the object are [""] (falsy, like [undefined]). *)
Record StripeSubscription := {
  ss_id : string;
  ss_status : string;
  metadata_tenantId : string;
  metadata_plan : string;
  current_period_start : Z;
  current_period_end : Z;
  cancel_at_period_end : bool;
}.

(** [mapStripeStatus] *)
Definition mapStripeStatus (stripeStatus : string) : SubscriptionStatus :=
  if String.eqb stripeStatus "active" then ACTIVE
  else if String.eqb stripeStatus "canceled" then CANCELED
  else if String.eqb stripeStatus "incomplete" then INCOMPLETE
  else if String.eqb stripeStatus "incomplete_expired" then INCOMPLETE_EXPIRED
  else if String.eqb stripeStatus "past_due" then PAST_DUE
  else if String.eqb stripeStatus "trialing" then TRIALING
  else if String.eqb stripeStatus "unpaid" then UNPAID
  else ACTIVE.

(** [metadata.plan as BillingPlan]: a string outside the enum is refused by
    Prisma's validation of the [plan] column. *)
Definition parse_plan (s : string) : option BillingPlan :=
  if String.eqb s "free" then Some FREE
  else if String.eqb s "starter" then Some STARTER
  else if String.eqb s "pro" then Some PRO
  else if String.eqb s "enterprise" then Some ENTERPRISE
  else None.

Definition subscription_findByTenant (tenantId : string) : M (option Subscription) :=
  gets (fun db => find_row (fun s => String.eqb (sub_tenantId s) tenantId) (subscriptions db)).

Definition plan_settings (p : BillingPlan) : TenantSettings :=
  {| aiCreditsLimit := Some (aiCreditsPerMonth (PLAN_FEATURES p));
     apiRateLimit := Some (apiRequestsPerMinute (PLAN_FEATURES p));
     customBranding := None |}.

Definition handleSubscriptionCreated (ss : StripeSubscription) : M unit :=
  let tenantId := metadata_tenantId ss in
  let planStr := metadata_plan ss in
  if String.eqb tenantId "" || String.eqb planStr "" then ret tt
  else
    match parse_plan planStr with
    | None => throw (PlainError "Invalid value for argument `plan`")
    | Some p =>
        let* o := subscription_findByTenant tenantId in
        match o with
        | None => throw PrismaRecordNotFound
        | Some s =>
            subscription_update (sub_id s) (fun s =>
              {| sub_id := sub_id s; sub_tenantId := sub_tenantId s;
                 stripeCustomerId := stripeCustomerId s;
                 stripeSubscriptionId := Some (ss_id ss); sub_plan := p;
                 status := mapStripeStatus (ss_status ss);
                 currentPeriodStart := (current_period_start ss * 1000)%Z;
                 currentPeriodEnd := (current_period_end ss * 1000)%Z;
                 cancelAtPeriodEnd := cancel_at_period_end ss |}) ;;
            updatePlan tenantId p ;;
            updateSettings tenantId (plan_settings p) ;;
            ret tt
        end
    end.

Definition handleSubscriptionUpdated (ss : StripeSubscription) : M unit :=
  let* subscription := subscription_findByStripeId (ss_id ss) in
  match subscription with
  | None => ret tt
  | Some s =>
      subscription_update (sub_id s) (fun s =>
        {| sub_id := sub_id s; sub_tenantId := sub_tenantId s;
           stripeCustomerId := stripeCustomerId s;
           stripeSubscriptionId := stripeSubscriptionId s; sub_plan := sub_plan s;
           status := mapStripeStatus (ss_status ss);
           currentPeriodStart := (current_period_start ss * 1000)%Z;
           currentPeriodEnd := (current_period_end ss * 1000)%Z;
           cancelAtPeriodEnd := cancel_at_period_end ss |}) ;;
      ret tt
  end.

Definition canceled_free (s : Subscription) : Subscription :=
  {| sub_id := sub_id s; sub_tenantId := sub_tenantId s;
     stripeCustomerId := stripeCustomerId s; stripeSubscriptionId := stripeSubscriptionId s;
     sub_plan := FREE; status := CANCELED; currentPeriodStart := currentPeriodStart s;
     currentPeriodEnd := currentPeriodEnd s; cancelAtPeriodEnd := cancelAtPeriodEnd s |}.

Definition handleSubscriptionDeleted (ss : StripeSubscription) : M unit :=
  let* subscription := subscription_findByStripeId (ss_id ss) in
  match subscription with
  | None => ret tt
  | Some s =>
      subscription_update (sub_id s) canceled_free ;;
      updatePlan (sub_tenantId s) FREE ;;
      let freePlanFeatures := PLAN_FEATURES FREE in
      updateSettings (sub_tenantId s)
        {| aiCreditsLimit := Some (aiCreditsPerMonth freePlanFeatures);
           apiRateLimit := Some (apiRequestsPerMinute freePlanFeatures);
           customBranding := None |} ;;
      ret tt
  end.

(* ------------------------------------------------------------------ *)
(** ** WebhooksService.handleStripeWebhook *)

(** A verified [Stripe.Event]: its id, type, [data] (as persisted) and
    [data.object] read as a subscription (invoices are only logged). *)
Record StripeEvent := {
  ev_id : string;
  ev_type : string;
  ev_data : string;
  ev_object : StripeSubscription;
}.

Section Webhooks.

(** The column default of [WebhookEvent.id] (the Prisma schema is not part
    of the sources): the id the store gives the [n]-th row created without
    an explicit id. *)
Variable default_id : nat -> string.

(** [prisma.webhookEvent.create({ data: { type, data } })]: no [id] is
    given, so the row gets the column default; [processed] defaults to
    [false]. *)
Definition webhookEvent_create (ty data : string) : M WebhookEvent :=
  let* db := gets id in
  let n := webhookEvents_created db in
  let row := {| we_id := default_id n; we_type := ty; we_data := data; processed := false |} in
  if bool_decide (is_Some (webhookEvents db !! we_id row))
  then throw PrismaUniqueViolation
  else modify (set_webhookEvents (insert (we_id row) row) S) ;; ret row.

Definition webhookEvent_markProcessed (id : string) : M WebhookEvent :=
  let* o := gets (fun db => webhookEvents db !! id) in
  match o with
  | None => throw PrismaRecordNotFound
  | Some w =>
      let w' := {| we_id := we_id w; we_type := we_type w; we_data := we_data w;
                   processed := true |} in
      modify (set_webhookEvents (insert id w') (fun n => n)) ;; ret w'
  end.

(** The [switch (event.type)] of [handleStripeWebhook]; the two invoice
    handlers only log. *)
Definition dispatch (event : StripeEvent) : M unit :=
  let t := ev_type event in
  if String.eqb t "customer.subscription.created" then handleSubscriptionCreated (ev_object event)
  else if String.eqb t "customer.subscription.updated" then handleSubscriptionUpdated (ev_object event)
  else if String.eqb t "customer.subscription.deleted" then handleSubscriptionDeleted (ev_object event)
  else ret tt.

(** [handleStripeWebhook(signature, body)]: [webhookSecret] is the
    configured [STRIPE_WEBHOOK_SECRET] ([None] when unset) and [verified]
    the result of [stripe.webhooks.constructEvent(body, signature,
    webhookSecret)] ([None] when it throws). *)
Definition handleStripeWebhook (webhookSecret : option string) (verified : option StripeEvent)
    : M unit :=
  match webhookSecret with
  | None | Some EmptyString => throw (PlainError "Webhook secret not configured")
  | Some _ =>
      match verified with
      | None => throw (PlainError "Invalid signature")
      | Some event =>
          webhookEvent_create (ev_type event) (ev_data event) ;;
          try_catch
            (dispatch event ;;
             webhookEvent_markProcessed (ev_id event) ;;
             ret tt)
            (fun error => throw error)
      end
  end.
End Webhooks.

(* ------------------------------------------------------------------ *)
(** ** TenantsService.updateTenant *)

(** One own property of the [data: Partial<Tenant>] payload; the [id]
    column is not among them (the controller passes an [UpdateTenantDto],
    whose whitelisted properties are [name] and [slug]). *)
Inductive TenantField :=
  | F_t_name (v : string)
  | F_t_slug (v : string)
  | F_t_plan (v : BillingPlan)
  | F_t_isActive (v : bool)
  | F_t_settings (v : TenantSettings).

Definition apply_tenant_field (t : Tenant) (f : TenantField) : Tenant :=
  let '{| tenant_id := i; tenant_name := n; slug := s; plan := p;
          tenant_isActive := a; settings := st |} := t in
  match f with
  | F_t_name v => {| tenant_id := i; tenant_name := v; slug := s; plan := p;
                     tenant_isActive := a; settings := st |}
  | F_t_slug v => {| tenant_id := i; tenant_name := n; slug := v; plan := p;
                     tenant_isActive := a; settings := st |}
  | F_t_plan v => {| tenant_id := i; tenant_name := n; slug := s; plan := v;
                     tenant_isActive := a; settings := st |}
  | F_t_isActive v => {| tenant_id := i; tenant_name := n; slug := s; plan := p;
                         tenant_isActive := v; settings := st |}
  | F_t_settings v => {| tenant_id := i; tenant_name := n; slug := s; plan := p;
                         tenant_isActive := a; settings := v |}
  end.

(** [prisma.tenant.update({ where: { id }, data })]: a missing row throws
    P2025; a [slug] already held by another tenant throws P2002. *)
Definition tenant_update_data (id : string) (data : list TenantField) : M Tenant :=
  let* o := tenant_findUnique id in
  match o with
  | None => throw PrismaRecordNotFound
  | Some t =>
      let t' := fold_left apply_tenant_field data t in
      let* db := gets Datatypes.id in
      if bool_decide (is_Some (find_row (fun t'' => String.eqb (slug t'') (slug t') &&
                                                    negb (String.eqb (tenant_id t'') id))
                                        (tenants db)))
      then throw PrismaUniqueViolation
      else modify (set_tenants (insert id t')) ;; ret t'
  end.

Definition updateTenant (id : string) (data : list TenantField) : M Tenant :=
  let* tenant := TenantsService_findById id in
  match tenant with
  | None => throw (NotFound "Tenant not found")
  | Some _ => tenant_update_data id data
  end.

(* ------------------------------------------------------------------ *)
(** ** AuthService: login and token refresh *)

Record LoginRequest := {
  login_email : string;
  login_password : string;
}.

(** What one call of [login] reads from its environment:
    [bcrypt.compare(password, hash)] (it resolves with whether the two
    match, or rejects: [None]) and the two tokens [jwtService.sign]
    returns. *)
Record LoginEnv := {
  bcrypt_compare : string -> string -> option bool;
  login_access : string;
  login_refresh : string;
}.

Definition UsersService_findById (id : string) : M (option User) := user_findUnique id.

(** [validateUser]: every error is caught and turned into [null]. *)
Definition validateUser (em pw : string) (env : LoginEnv) : M (option User) :=
  try_catch
    (let* user := UsersService_findByEmail em in
     match user with
     | None => ret None
     | Some u =>
         match bcrypt_compare env pw (password u) with
         | None => throw (PlainError "Illegal arguments")
         | Some false => ret None
         | Some true => ret (Some u)
         end
     end)
    (fun _ => ret None).

Definition login (loginRequest : LoginRequest) (env : LoginEnv) : M AuthResponse :=
  let* user := validateUser (login_email loginRequest) (login_password loginRequest) env in
  match user with
  | None => throw (Unauthorized "Invalid credentials")
  | Some u =>
      if negb (isActive u) then throw (Unauthorized "Account is deactivated")
      else
        let* tenant := TenantsService_findById (user_tenantId u) in
        match tenant with
        | Some t =>
            if tenant_isActive t
            then ret {| auth_user := u; auth_tenant := t;
                        accessToken := login_access env; refreshToken := login_refresh env |}
            else throw (Unauthorized "Tenant is deactivated")
        | None => throw (Unauthorized "Tenant is deactivated")
        end
  end.

(** What one call of [refreshToken] reads from its environment:
    [jwtService.verify(token, ...)] (the payload's [sub], or [None] when
    it throws) and the token [jwtService.sign] returns. *)
Record RefreshEnv := {
  jwt_verify : string -> option string;
  refreshed_access : string;
}.

(** [AuthService.refreshToken]; the result is the [accessToken] field of
    the returned object. *)
Definition AuthService_refreshToken (env : RefreshEnv) (token : string) : M string :=
  try_catch
    (match jwt_verify env token with
     | None => throw (PlainError "invalid signature")
     | Some sub =>
         let* user := UsersService_findById sub in
         match user with
         | None => throw (Unauthorized "Invalid refresh token")
         | Some _ => ret (refreshed_access env)
         end
     end)
    (fun _ => throw (Unauthorized "Invalid refresh token")).

(* ------------------------------------------------------------------ *)
(** ** UsersService: deactivation, invitations, statistics *)

Definition deactivateUser (id tenantId : string) (currentUserRole : UserRole) : M User :=
  if negb (bool_decide (currentUserRole = ADMIN))
  then throw (Forbidden "Only admins can deactivate users")
  else
    let* user := UsersService_findById id in
    match user with
    | None => throw (NotFound "User not found")
    | Some u =>
        if negb (String.eqb (user_tenantId u) tenantId)
        then throw (Forbidden "Cannot deactivate user from different tenant")
        else user_update id [F_isActive false]
    end.

(** [inviteUser]; the result is the [message] field of the returned
    object. *)
Definition inviteUser (tenantId em : string) (r : UserRole) (invitedBy : string) : M string :=
  let* existingUser := UsersService_findByEmail em in
  match existingUser with
  | Some _ => throw (Forbidden "User with this email already exists")
  | None => ret (String.append "Invitation sent to " em)
  end.

(** [prisma.user.count({ where })] *)
Definition user_count (p : User -> bool) : M nat :=
  gets (fun db => List.length (List.filter (fun kv => p kv.2) (map_to_list (users db)))).

Record UserStats := {
  totalUsers : nat;
  activeUsers : nat;
  adminUsers : nat;
  regularUsers : nat;
}.

Definition getUserStats (tenantId : string) : M UserStats :=
  let in_tenant (u : User) := String.eqb (user_tenantId u) tenantId in
  let* totalUsers := user_count in_tenant in
  let* activeUsers := user_count (fun u => in_tenant u && isActive u) in
  let* adminUsers := user_count (fun u => in_tenant u && bool_decide (role u = ADMIN)) in
  let* regularUsers := user_count (fun u => in_tenant u && bool_decide (role u = USER)) in
  ret {| totalUsers := totalUsers; activeUsers := activeUsers;
         adminUsers := adminUsers; regularUsers := regularUsers |}.

(* ------------------------------------------------------------------ *)
(** ** BillingService: customers and Stripe sessions *)

(** What the Stripe client answers: [customers.create] resolves with the
    new customer's id for the given email and name, [checkout.sessions.create]
    and [billingPortal.sessions.create] with the session's url for the
    given customer; [None] when the call rejects. *)
Record StripeEnv := {
  customers_create : string -> string -> option string;
  checkout_sessions_create : string -> option string;
  portal_sessions_create : string -> option string;
}.

Definition with_customer (cid : string) (s : Subscription) : Subscription :=
  {| sub_id := sub_id s; sub_tenantId := sub_tenantId s;
     stripeCustomerId := Some cid; stripeSubscriptionId := stripeSubscriptionId s;
     sub_plan := sub_plan s; status := status s; currentPeriodStart := currentPeriodStart s;
     currentPeriodEnd := currentPeriodEnd s; cancelAtPeriodEnd := cancelAtPeriodEnd s |}.

(** [prisma.subscription.update({ where: { tenantId }, data })] *)
Definition subscription_updateByTenant (tenantId : string) (f : Subscription -> Subscription)
    : M Subscription :=
  let* o := subscription_findByTenant tenantId in
  match o with
  | None => throw PrismaRecordNotFound
  | Some s => subscription_update (sub_id s) f
  end.

Definition createCustomer (tenantId em nm : string) (env : StripeEnv) : M string :=
  try_catch
    (match customers_create env em nm with
     | None => throw (PlainError "Stripe customer creation failed")
     | Some cid => subscription_updateByTenant tenantId (with_customer cid) ;; ret cid
     end)
    (fun _ => throw (BadRequest "Failed to create customer")).

(** [createCheckoutSession]; the result is [checkoutUrl].  The tenant is
    loaded with the subscription ([include: { tenant: true }]); the
    relation is required, so a missing tenant row makes Prisma throw. *)
Definition createCheckoutSession (tenantId : string) (p : BillingPlan) (env : StripeEnv)
    : M string :=
  if bool_decide (p = FREE)
  then throw (BadRequest "Cannot create checkout session for free plan")
  else
    let* subscription := subscription_findByTenant tenantId in
    match subscription with
    | None => throw (BadRequest "Subscription not found")
    | Some s =>
        let* customerId :=
          match stripeCustomerId s with
          | Some (String _ _ as cid) => ret cid
          | _ =>
              let* tenant := gets (fun db => tenants db !! sub_tenantId s) in
              match tenant with
              | None => throw (PlainError "Inconsistent query result: Field tenant is required")
              | Some t =>
                  createCustomer tenantId (String.append "admin@" (String.append (slug t) ".com"))
                    (tenant_name t) env
              end
          end in
        try_catch
          (match checkout_sessions_create env customerId with
           | None => throw (PlainError "Stripe checkout session creation failed")
           | Some url => ret url
           end)
          (fun _ => throw (BadRequest "Failed to create checkout session"))
    end.

(** [createPortalSession]; the result is [portalUrl]. *)
Definition createPortalSession (tenantId returnUrl : string) (env : StripeEnv) : M string :=
  let* subscription := subscription_findByTenant tenantId in
  match subscription with
  | Some s =>
      match stripeCustomerId s with
      | Some (String _ _ as cid) =>
          try_catch
            (match portal_sessions_create env cid with
             | None => throw (PlainError "Stripe portal session creation failed")
             | Some url => ret url
             end)
            (fun _ => throw (BadRequest "Failed to create portal session"))
      | _ => throw (BadRequest "Customer not found")
      end
  | None => throw (BadRequest "Customer not found")
  end.

(* ------------------------------------------------------------------ *)
(** ** Observations on the store *)

(** The tenant's usage counters for a month, an absent row reading as 0
    (as [getTenantUsage] reads it). *)
Definition usage_credits (db : DB) (tenantId m : string) : nat :=
  default 0 (aiCreditsUsed <$> usages db !! (tenantId, m)).
Definition usage_requests (db : DB) (tenantId m : string) : nat :=
  default 0 (apiRequestsCount <$> usages db !! (tenantId, m)).

(** [sub] occurs in [s]. *)
Definition contains (s sub : string) : Prop :=
  exists pre post, s = String.append pre (String.append sub post).

(** Every character of [s] satisfies [p]. *)
Definition all_chars (p : ascii -> bool) (s : string) : bool :=
  forallb p (list_ascii_of_string s).

Definition starts_hyphen (s : string) : bool :=
  match s with
  | String c _ => is_hyphen c
  | EmptyString => false
  end.

(** No two consecutive hyphens. *)
Fixpoint no_double_hyphen (s : string) : bool :=
  match s with
  | String c s' => negb (is_hyphen c && starts_hyphen s') && no_double_hyphen s'
  | EmptyString => true
  end.

Definition slug_char (c : ascii) : bool := is_lower_alnum c || is_hyphen c.

(** The slug derivation as the spec sentence words it, for comparison with
    [generateSlug]: lowercase, strip characters other than alphanumerics,
    spaces and hyphens, replace each run of whitespace by one hyphen,
    truncate to 50 characters. *)
Fixpoint collapse_whitespace (in_run : bool) (s : list N) : list N :=
  match s with
  | [] => []
  | c :: s' =>
      if is_js_space c then
        if in_run then collapse_whitespace true s' else 45%N :: collapse_whitespace true s'
      else c :: collapse_whitespace false s'
  end.
Definition claimed_slug (name : string) : string :=
  utf8_encode (firstn 50 (collapse_whitespace false
                            (strip_disallowed (toLowerCase_cps (utf8_decode name))))).

(** Code points that survive [strip_disallowed], and those of a slug. *)
Definition slug_input_cp (c : N) : bool := is_lower_alnum_cp c || is_js_space c || is_hyphen_cp c.
Definition slug_cp (c : N) : bool := is_lower_alnum_cp c || is_hyphen_cp c.

Definition starts_hyphen_cps (s : list N) : bool :=
  match s with
  | c :: _ => is_hyphen_cp c
  | [] => false
  end.
Fixpoint no_double_hyphen_cps (s : list N) : bool :=
  match s with
  | c :: s' => negb (is_hyphen_cp c && starts_hyphen_cps s') && no_double_hyphen_cps s'
  | [] => true
  end.

(** A computation that leaves the [WebhookEvent] table alone. *)
Definition keeps_webhooks {A} (m : M A) : Prop :=
  forall db, webhookEvents (snd (m db)) = webhookEvents db.

(* ------------------------------------------------------------------ *)
(** ** Concrete stores and calls used by the examples *)

Definition free_settings_with_limit (l : nat) : TenantSettings :=
  {| aiCreditsLimit := Some l; apiRateLimit := Some 10; customBranding := None |}.

Definition tenant_t1 (l : nat) : Tenant :=
  {| tenant_id := "t1"; tenant_name := "Acme Inc"; slug := "acme-inc"; plan := FREE;
     tenant_isActive := true; settings := free_settings_with_limit l |}.

Definition empty_db : DB :=
  {| tenants := ∅; users := ∅; teamMembers := ∅; subscriptions := ∅; usages := ∅;
     aiRequests := ∅; webhookEvents := ∅; webhookEvents_created := 0 |}.

(** Tenant [t1] with credit limit [l] and [used] credits spent this month. *)
Definition db_t1 (l used : nat) : DB :=
  {| tenants := {[ "t1" := tenant_t1 l ]}; users := ∅; teamMembers := ∅;
     subscriptions := ∅;
     usages := {[ ("t1", "2026-10") := {| usage_tenantId := "t1"; month := "2026-10";
                                          aiCreditsUsed := used; apiRequestsCount := 4 |} ]};
     aiRequests := ∅; webhookEvents := ∅; webhookEvents_created := 0 |}.

Definition call_env (c : Completion) : CallEnv :=
  {| now_start := 1000; now_done := 1400; now_failed := 1450; request_uuid := "req-1";
     request_json := "{}"; env_month := "2026-10"; completion := c |}.

Definition sub_pro : Subscription :=
  {| sub_id := "s1"; sub_tenantId := "t1"; stripeCustomerId := Some "cus_1";
     stripeSubscriptionId := Some "sub_9"; sub_plan := PRO; status := ACTIVE;
     currentPeriodStart := 0; currentPeriodEnd := 2592000; cancelAtPeriodEnd := false |}.

Definition tenant_pro : Tenant :=
  {| tenant_id := "t1"; tenant_name := "Acme Inc"; slug := "acme-inc"; plan := PRO;
     tenant_isActive := true; settings := plan_settings PRO |}.

(** Tenant [t1] on the pro plan, with its Stripe subscription [sub_9]. *)
Definition db_pro : DB :=
  {| tenants := {[ "t1" := tenant_pro ]}; users := ∅; teamMembers := ∅;
     subscriptions := {[ "s1" := sub_pro ]}; usages := ∅; aiRequests := ∅;
     webhookEvents := ∅; webhookEvents_created := 0 |}.

Definition deleted_sub : StripeSubscription :=
  {| ss_id := "sub_9"; ss_status := "canceled"; metadata_tenantId := "t1";
     metadata_plan := "pro"; current_period_start := 0; current_period_end := 2592;
     cancel_at_period_end := false |}.

(** A column default for [WebhookEvent.id] in the style of [cuid()]. *)
Definition sample_cuid (n : nat) : string :=
  String.append "clx0webhook" (String (ascii_of_nat (48 + n mod 10)) EmptyString).

Definition paid_invoice_event : StripeEvent :=
  {| ev_id := "evt_1"; ev_type := "invoice.payment_succeeded";
     ev_data := "{object: invoice in_1}"; ev_object := deleted_sub |}.

Definition acme_request (tn em : string) : RegisterRequest :=
  {| reg_email := em; reg_password := "secret-pw"; reg_name := "Ann"; tenantName := tn |}.

Definition reg_env (tag : string) : RegisterEnv :=
  {| tenant_uuid := String.append "tenant-" tag; user_uuid := String.append "user-" tag;
     member_uuid := String.append "member-" tag; subscription_uuid := String.append "sub-" tag;
     hashedPassword := "$2b$12$hash"; reg_now := 1700000000000;
     signed_access := "access"; signed_refresh := "refresh" |}.

Definition sample_summarization : TextSummarizationRequest :=
  {| text := "A long text to summarize."; maxLength := None; style := None |}.

Definition sample_qa : DocumentQaRequest :=
  {| documentText := "The fee is ten euros."; question := "What is the fee?";
     context := None |}.

Definition user_ann : User :=
  {| user_id := "u1"; email := "ann@acme.test"; name := "Ann"; password := "$2b$12$hash";
     role := ADMIN; user_tenantId := "t1"; avatar := None; isActive := true |}.

Definition user_bob : User :=
  {| user_id := "u2"; email := "bob@acme.test"; name := "Bob"; password := "$2b$12$bobh";
     role := USER; user_tenantId := "t1"; avatar := None; isActive := true |}.

(** Tenant [t1] with its admin Ann and the user Bob. *)
Definition db_team : DB :=
  {| tenants := {[ "t1" := tenant_t1 100 ]};
     users := <[ "u2" := user_bob ]> {[ "u1" := user_ann ]};
     teamMembers := ∅; subscriptions := ∅; usages := ∅; aiRequests := ∅;
     webhookEvents := ∅; webhookEvents_created := 0 |}.

(** A [bcrypt.compare] that accepts "secret-pw" against the hash
    "$2b$12$hash" only. *)
Definition sample_compare (pw h : string) : option bool :=
  Some (String.eqb pw "secret-pw" && String.eqb h "$2b$12$hash").

Definition login_env : LoginEnv :=
  {| bcrypt_compare := sample_compare; login_access := "access"; login_refresh := "refresh" |}.

Definition refresh_env (sub : string) : RefreshEnv :=
  {| jwt_verify := fun tok => if String.eqb tok "rt" then Some sub else None;
     refreshed_access := "access2" |}.

(** Tenant [t1] on the free plan with a subscription and no Stripe
    customer yet. *)
Definition sub_free_nocus : Subscription :=
  {| sub_id := "s1"; sub_tenantId := "t1"; stripeCustomerId := None;
     stripeSubscriptionId := None; sub_plan := FREE; status := ACTIVE;
     currentPeriodStart := 0; currentPeriodEnd := 2592000000; cancelAtPeriodEnd := false |}.

Definition db_free : DB :=
  {| tenants := {[ "t1" := tenant_t1 100 ]}; users := ∅; teamMembers := ∅;
     subscriptions := {[ "s1" := sub_free_nocus ]}; usages := ∅; aiRequests := ∅;
     webhookEvents := ∅; webhookEvents_created := 0 |}.

(** Stripe creates customer [cus_7] and then rejects the checkout
    session. *)
Definition stripe_checkout_down : StripeEnv :=
  {| customers_create := fun _ _ => Some "cus_7"; checkout_sessions_create := fun _ => None;
     portal_sessions_create := fun _ => None |}.

Definition created_sub (tid pl : string) : StripeSubscription :=
  {| ss_id := "sub_5"; ss_status := "trialing"; metadata_tenantId := tid;
     metadata_plan := pl; current_period_start := 1700000000;
     current_period_end := 1702592000; cancel_at_period_end := false |}.

(** Stripe creates customer [cus_8] and opens checkout sessions. *)
Definition stripe_checkout_up : StripeEnv :=
  {| customers_create := fun _ _ => Some "cus_8";
     checkout_sessions_create := fun c => Some (String.append "https://checkout.stripe.test/" c);
     portal_sessions_create := fun _ => None |}.

(** Ann's login with the password her hash accepts. *)
Definition ann_login : LoginRequest :=
  {| login_email := "ann@acme.test"; login_password := "secret-pw" |}.

(** "Acme" and "Inc" separated by a no-break space (U+00A0, UTF-8 C2 A0). *)
Definition acme_nbsp : string :=
  String.append "Acme" (String (ascii_of_nat 194) (String (ascii_of_nat 160) "Inc")).

(* ================================================================== *)
(** * Properties *)

(** ** Monad and Prisma step lemmas *)

Lemma bind_ok {A B} (m : M A) (k : A -> M B) db a db' :
  m db = (inr a, db') -> bind m k db = k a db'.
Proof. intros H. unfold bind. rewrite H. reflexivity. Qed.

Lemma bind_err {A B} (m : M A) (k : A -> M B) db e db' :
  m db = (inl e, db') -> bind m k db = (inl e, db').
Proof. intros H. unfold bind. rewrite H. reflexivity. Qed.

Lemma try_catch_ok {A} (m : M A) h db a db' :
  m db = (inr a, db') -> try_catch m h db = (inr a, db').
Proof. intros H. unfold try_catch. rewrite H. reflexivity. Qed.

Lemma try_catch_err {A} (m : M A) h db e db' :
  m db = (inl e, db') -> try_catch m h db = h e db'.
Proof. intros H. unfold try_catch. rewrite H. reflexivity. Qed.

Lemma aiRequest_create_fresh r db :
  aiRequests db !! ar_id r = None ->
  aiRequest_create r db = (inr r, set_aiRequests <[ar_id r := r]> db).
Proof. intros H. unfold aiRequest_create, bind, gets, modify, ret; simpl. rewrite H. reflexivity. Qed.

Lemma aiRequest_update_found id f r db :
  aiRequests db !! id = Some r ->
  aiRequest_update id f db = (inr (f r), set_aiRequests <[id := f r]> db).
Proof. intros H. unfold aiRequest_update, bind, gets, modify, ret; simpl. rewrite H. reflexivity. Qed.



(** The credit check lets a call through exactly when the effective limit
    reported by [getTenantUsage] is not exceeded. *)
Lemma checkCredits_spec id cr m db u :
  getTenantUsage id m db = (inr u, db) ->
  checkCredits id cr m db =
    if tu_aiCreditsLimit u <? tu_aiCreditsUsed u + cr
    then (inl (TypeError PaymentRequiredException_not_a_constructor), db)
    else (inr tt, db).
Proof.
  intros H. unfold checkCredits. rewrite (bind_ok _ _ _ _ _ H).
  destruct (_ <? _); reflexivity.
Qed.

Lemma create_processing_row_ok tid uid ty env db :
  checkCredits tid (AI_SERVICE_CREDITS ty) (env_month env) db = (inr tt, db) ->
  aiRequests db !! request_uuid env = None ->
  create_processing_row tid uid ty env db =
    (inr (processing_row tid uid ty env),
     set_aiRequests <[request_uuid env := processing_row tid uid ty env]> db).
Proof.
  intros Hc Hf. unfold create_processing_row. rewrite (bind_ok _ _ _ _ _ Hc).
  apply aiRequest_create_fresh. exact Hf.
Qed.

Lemma create_processing_row_refused tid uid ty env db e :
  checkCredits tid (AI_SERVICE_CREDITS ty) (env_month env) db = (inl e, db) ->
  create_processing_row tid uid ty env db = (inl e, db).
Proof. intros Hc. unfold create_processing_row. exact (bind_err _ _ _ _ _ Hc). Qed.

Lemma openai_rejects_bind {A} env msg (k : string -> M A) db :
  completion env = CompletionRejects msg ->
  bind (openai_create (completion env)) k db = (inl (PlainError msg), db).
Proof. intros H. rewrite H. reflexivity. Qed.

Lemma openai_resolves_bind {A} env c (k : string -> M A) db :
  completion env = CompletionResolves c ->
  bind (openai_create (completion env)) k db = k (default "" c) db.
Proof. intros H. rewrite H. reflexivity. Qed.

Lemma incrementUsage_ok tid a b m db :
  incrementUsage tid a b m db = (inr tt, snd (incrementUsage tid a b m db)).
Proof. reflexivity. Qed.

Lemma incrementUsage_counts tid a b m db :
  let db' := snd (incrementUsage tid a b m db) in
  usage_credits db' tid m = usage_credits db tid m + a /\
  usage_requests db' tid m = usage_requests db tid m + b /\
  (forall k, k <> (tid, m) -> usages db' !! k = usages db !! k).
Proof.
  unfold usage_credits, usage_requests. simpl.
  destruct (usages db !! (tid, m)) as [u|] eqn:E; simpl.
  - rewrite lookup_insert_eq. simpl. split; [|split]; [reflexivity|reflexivity|].
    intros k Hk. rewrite lookup_insert_ne; congruence.
  - rewrite lookup_insert_eq. simpl. split; [|split]; [reflexivity|reflexivity|].
    intros k Hk. rewrite lookup_insert_ne; congruence.
Qed.

(** The failure path shared by both gateway methods: the row is marked
    failed with the error's message, then a [BadRequest] is thrown. *)
Lemma failure_handler_run tid uid ty env db msg :
  let row := processing_row tid uid ty env in
  let db1 := set_aiRequests <[request_uuid env := row]> db in
  let failed := failed_with msg (now_failed env - now_start env)%Z row in
  forall A (e : Exn),
  (aiRequest_update (ar_id row) (failed_with msg (now_failed env - now_start env)%Z) ;;
   (throw e : M A)) db1
  = (inl e, set_aiRequests <[request_uuid env := failed]> db1).
Proof.
  intros row db1 failed A e.
  assert (Hr : aiRequests db1 !! ar_id row = Some row)
    by (unfold db1; simpl; apply lookup_insert_eq).
  rewrite (bind_ok _ _ _ _ _ (aiRequest_update_found _ _ row _ Hr)).
  reflexivity.
Qed.

Ltac gateway_fail Hc Hf Hrej :=
  rewrite (bind_ok _ _ _ _ _ (create_processing_row_ok _ _ _ _ _ Hc Hf));
  rewrite (try_catch_err _ _ _ _ _ (openai_rejects_bind _ _ _ _ Hrej));
  cbv beta;
  rewrite failure_handler_run.

Lemma summarize_failed_run tid uid req env db msg :
  checkCredits tid (AI_SERVICE_CREDITS TEXT_SUMMARIZATION) (env_month env) db = (inr tt, db) ->
  aiRequests db !! request_uuid env = None ->
  completion env = CompletionRejects msg ->
  summarizeText tid uid req env db =
    (inl (BadRequest "Failed to summarize text"),
     set_aiRequests
       <[request_uuid env := failed_with (exn_message (PlainError msg))
                               (now_failed env - now_start env)%Z
                               (processing_row tid uid TEXT_SUMMARIZATION env)]>
       (set_aiRequests <[request_uuid env := processing_row tid uid TEXT_SUMMARIZATION env]> db)).
Proof. intros Hc Hf Hrej. unfold summarizeText. gateway_fail Hc Hf Hrej. reflexivity. Qed.

Lemma answer_failed_run tid uid req env db msg :
  checkCredits tid (AI_SERVICE_CREDITS DOCUMENT_QA) (env_month env) db = (inr tt, db) ->
  aiRequests db !! request_uuid env = None ->
  completion env = CompletionRejects msg ->
  answerQuestion tid uid req env db =
    (inl (BadRequest "Failed to answer question"),
     set_aiRequests
       <[request_uuid env := failed_with (exn_message (PlainError msg))
                               (now_failed env - now_start env)%Z
                               (processing_row tid uid DOCUMENT_QA env)]>
       (set_aiRequests <[request_uuid env := processing_row tid uid DOCUMENT_QA env]> db)).
Proof. intros Hc Hf Hrej. unfold answerQuestion. gateway_fail Hc Hf Hrej. reflexivity. Qed.

Lemma success_run {A} tid uid ty env db (out : string) (res : A) :
  let row := processing_row tid uid ty env in
  let db1 := set_aiRequests <[request_uuid env := row]> db in
  let done_row := completed_with out (now_done env - now_start env)%Z row in
  let db2 := set_aiRequests <[request_uuid env := done_row]> db1 in
  (aiRequest_update (ar_id row) (completed_with out (now_done env - now_start env)%Z) ;;
   incrementUsage tid (AI_SERVICE_CREDITS ty) 1 (env_month env) ;;
   ret res) db1
  = (inr res, snd (incrementUsage tid (AI_SERVICE_CREDITS ty) 1 (env_month env) db2)).
Proof.
  intros row db1 done_row db2.
  assert (Hr : aiRequests db1 !! ar_id row = Some row)
    by (unfold db1; simpl; apply lookup_insert_eq).
  rewrite (bind_ok _ _ _ _ _ (aiRequest_update_found _ _ row _ Hr)).
  rewrite (bind_ok _ _ _ _ _ (incrementUsage_ok _ _ _ _ _)).
  reflexivity.
Qed.

(** ** C2: a failed external call during [summarize] *)

(** C2: when the credit check passes and the external model call throws
    with message [msg], the call fails with the generic [BadRequest]; the
    AiRequest row created for it ends [failed] with the non-null error
    message [msg]; and no usage counter of any tenant changes. *)
Theorem summarize_failed_call_leaves_usage tid uid req env db msg :
  checkCredits tid (AI_SERVICE_CREDITS TEXT_SUMMARIZATION) (env_month env) db = (inr tt, db) ->
  aiRequests db !! request_uuid env = None ->
  completion env = CompletionRejects msg ->
  exists db' r,
    summarizeText tid uid req env db = (inl (BadRequest "Failed to summarize text"), db') /\
    aiRequests db' !! request_uuid env = Some r /\
    ar_status r = FAILED /\ errorMessage r = Some msg /\
    usages db' = usages db.
Proof.
  intros Hc Hf Hrej.
  rewrite (summarize_failed_run _ _ _ _ _ _ Hc Hf Hrej).
  eexists _, _. split; [reflexivity|].
  split; [simpl; apply lookup_insert_eq|].
  repeat split; reflexivity.
Qed.

(** ** C9: a failed call keeps its credit cost on the AiRequest row *)

(** C9: for [summarize] and for [answerQuestion] separately, when the call
    passed its own credit check and the external call then fails, the
    AiRequest row keeps [creditsUsed] equal to the service's credit cost
    (2 and 3), while the tenant's usage counters stay as they were; so the
    row's [creditsUsed] exceeds the recorded usage increase, which is 0.
    Each conjunct assumes only the check of its own call: a tenant at
    [limit - 2] can summarize even though its question would be refused. *)
Theorem failed_call_row_keeps_credits tid uid env db msg sreq qreq :
  aiRequests db !! request_uuid env = None ->
  completion env = CompletionRejects msg ->
  (checkCredits tid (AI_SERVICE_CREDITS TEXT_SUMMARIZATION) (env_month env) db = (inr tt, db) ->
   exists r,
     aiRequests (snd (summarizeText tid uid sreq env db)) !! request_uuid env = Some r /\
     ar_status r = FAILED /\ creditsUsed r = AI_SERVICE_CREDITS TEXT_SUMMARIZATION /\
     usages (snd (summarizeText tid uid sreq env db)) = usages db /\
     usage_credits (snd (summarizeText tid uid sreq env db)) tid (env_month env)
       < usage_credits db tid (env_month env) + creditsUsed r) /\
  (checkCredits tid (AI_SERVICE_CREDITS DOCUMENT_QA) (env_month env) db = (inr tt, db) ->
   exists r,
     aiRequests (snd (answerQuestion tid uid qreq env db)) !! request_uuid env = Some r /\
     ar_status r = FAILED /\ creditsUsed r = AI_SERVICE_CREDITS DOCUMENT_QA /\
     usages (snd (answerQuestion tid uid qreq env db)) = usages db /\
     usage_credits (snd (answerQuestion tid uid qreq env db)) tid (env_month env)
       < usage_credits db tid (env_month env) + creditsUsed r).
Proof.
  intros Hf Hrej. split; intros Hc.
  - rewrite (summarize_failed_run _ _ _ _ _ _ Hc Hf Hrej). eexists.
    split; [simpl; apply lookup_insert_eq|].
    split; [reflexivity|]. split; [reflexivity|]. split; [reflexivity|].
    unfold usage_credits. simpl. lia.
  - rewrite (answer_failed_run _ _ _ _ _ _ Hc Hf Hrej). eexists.
    split; [simpl; apply lookup_insert_eq|].
    split; [reflexivity|]. split; [reflexivity|]. split; [reflexivity|].
    unfold usage_credits. simpl. lia.
Qed.

(** ** C3: a successful [summarize] *)

(** C3: when the credit check passes and the external call returns
    [content], the call returns the summary with [creditsUsed = 2],
    [originalLength] and [summaryLength]; the AiRequest row ends
    [completed] with [creditsUsed = 2]; the tenant's usage for the month
    grows by exactly 2 credits and 1 request; and no other usage row
    changes. *)
Theorem summarize_success_charges_fixed_cost tid uid req env db c :
  checkCredits tid (AI_SERVICE_CREDITS TEXT_SUMMARIZATION) (env_month env) db = (inr tt, db) ->
  aiRequests db !! request_uuid env = None ->
  completion env = CompletionResolves c ->
  exists db' r,
    summarizeText tid uid req env db =
      (inr {| summary := default "" c; originalLength := String.length (text req);
              summaryLength := String.length (default "" c); resp_creditsUsed := 2 |}, db') /\
    aiRequests db' !! request_uuid env = Some r /\
    ar_status r = COMPLETED /\ creditsUsed r = 2 /\
    usage_credits db' tid (env_month env) = usage_credits db tid (env_month env) + 2 /\
    usage_requests db' tid (env_month env) = usage_requests db tid (env_month env) + 1 /\
    (forall k, k <> (tid, env_month env) -> usages db' !! k = usages db !! k).
Proof.
  intros Hc Hf Hres. unfold summarizeText.
  rewrite (bind_ok _ _ _ _ _ (create_processing_row_ok _ _ _ _ _ Hc Hf)).
  erewrite try_catch_ok;
    [| rewrite (openai_resolves_bind _ _ _ _ Hres); apply success_run].
  set (row := processing_row tid uid TEXT_SUMMARIZATION env).
  set (db2 := set_aiRequests
                <[request_uuid env := completed_with (default "" c)
                                        (now_done env - now_start env)%Z row]>
                (set_aiRequests <[request_uuid env := row]> db)).
  destruct (incrementUsage_counts tid (AI_SERVICE_CREDITS TEXT_SUMMARIZATION) 1
              (env_month env) db2) as (H1 & H2 & H3).
  eexists _, _. split; [reflexivity|].
  split; [simpl; rewrite lookup_insert_eq; reflexivity|].
  split; [reflexivity|]. split; [reflexivity|].
  split; [rewrite H1; reflexivity|].
  split; [rewrite H2; reflexivity|].
  intros k Hk. rewrite (H3 k Hk). reflexivity.
Qed.

(** ** C1: the credit check *)

Lemma or_default_zero (x : option nat) : or_default x 0 = default 0 x.
Proof. destruct x as [[|n]|]; reflexivity. Qed.

Lemma getTenantUsage_run tid m db t :
  tenants db !! tid = Some t ->
  getTenantUsage tid m db =
    (inr {| currentMonth := m; tu_aiCreditsUsed := usage_credits db tid m;
            tu_apiRequestsCount := usage_requests db tid m;
            tu_aiCreditsLimit := or_default (aiCreditsLimit (settings t)) 100;
            tu_apiRateLimit := or_default (apiRateLimit (settings t)) 10 |}, db).
Proof.
  intros Ht. unfold getTenantUsage, TenantsService_findById, tenant_findUnique,
    usage_findUnique, bind, gets, ret. simpl. rewrite Ht.
  unfold usage_credits, usage_requests. rewrite !or_default_zero. reflexivity.
Qed.

(** A gateway call refused by the credit check changes nothing. *)
Lemma gateway_refused tid uid env db sreq qreq e :
  (checkCredits tid (AI_SERVICE_CREDITS TEXT_SUMMARIZATION) (env_month env) db = (inl e, db) ->
   summarizeText tid uid sreq env db = (inl e, db)) /\
  (checkCredits tid (AI_SERVICE_CREDITS DOCUMENT_QA) (env_month env) db = (inl e, db) ->
   answerQuestion tid uid qreq env db = (inl e, db)).
Proof.
  split; intros Hc.
  - unfold summarizeText. exact (bind_err _ _ _ _ _ (create_processing_row_refused _ _ _ _ _ _ Hc)).
  - unfold answerQuestion. exact (bind_err _ _ _ _ _ (create_processing_row_refused _ _ _ _ _ _ Hc)).
Qed.

(** For a tenant whose stored [aiCreditsLimit] is a positive number, both
    gateway methods are refused when the month's credits plus the service's
    cost exceed it, before any write: the whole store (AiRequest rows and
    usage counters included) is unchanged.  The error is the [TypeError] of
    [new PaymentRequiredException(...)], not an HTTP 402. *)
Lemma gateway_refused_over_positive_limit tid uid env db t lim sreq qreq :
  tenants db !! tid = Some t ->
  aiCreditsLimit (settings t) = Some lim -> 0 < lim ->
  (lim < usage_credits db tid (env_month env) + AI_SERVICE_CREDITS TEXT_SUMMARIZATION ->
   summarizeText tid uid sreq env db =
     (inl (TypeError PaymentRequiredException_not_a_constructor), db)) /\
  (lim < usage_credits db tid (env_month env) + AI_SERVICE_CREDITS DOCUMENT_QA ->
   answerQuestion tid uid qreq env db =
     (inl (TypeError PaymentRequiredException_not_a_constructor), db)).
Proof.
  intros Ht Hl Hpos.
  assert (Hd : or_default (aiCreditsLimit (settings t)) 100 = lim)
    by (rewrite Hl; destruct lim; [lia|reflexivity]).
  destruct (gateway_refused tid uid env db sreq qreq
              (TypeError PaymentRequiredException_not_a_constructor))
    as [G1 G2].
  split; intros Hover; [apply G1|apply G2];
    rewrite (checkCredits_spec _ _ _ _ _ (getTenantUsage_run _ _ _ _ Ht)); simpl;
    rewrite Hd; simpl in Hover; apply Nat.ltb_lt in Hover; rewrite Hover; reflexivity.
Qed.

(** C1 (divergence): tenant [t1] has stored [aiCreditsLimit = 0] (a value
    [UpdateSettingsDto] accepts: [@Min(0)]) and 0 credits used, so
    [used + required = 2 > 0 = limit]; yet [summarize] is not refused:
    [getTenantUsage] reads the limit as [0 || 100 = 100], the call
    completes and 2 credits are charged. *)
Theorem summarize_zero_limit_not_refused :
  aiCreditsLimit (settings (tenant_t1 0)) = Some 0 /\
  usage_credits (db_t1 0 0) "t1" "2026-10" + AI_SERVICE_CREDITS TEXT_SUMMARIZATION > 0 /\
  fst (summarizeText "t1" "u1" sample_summarization
         (call_env (CompletionResolves (Some "Short."))) (db_t1 0 0)) =
    inr {| summary := "Short."; originalLength := 25; summaryLength := 6;
           resp_creditsUsed := 2 |} /\
  usage_credits (snd (summarizeText "t1" "u1" sample_summarization
                        (call_env (CompletionResolves (Some "Short."))) (db_t1 0 0)))
    "t1" "2026-10" = 2.
Proof. vm_compute. repeat split; lia. Qed.

(** ** Witnesses *)

Lemma summarize_failed_call_leaves_usage_witness :
  exists db' r,
    summarizeText "t1" "u1" sample_summarization (call_env (CompletionRejects "timeout"))
      (db_t1 100 10) = (inl (BadRequest "Failed to summarize text"), db') /\
    aiRequests db' !! "req-1" = Some r /\
    ar_status r = FAILED /\ errorMessage r = Some "timeout" /\
    usages db' = usages (db_t1 100 10).
Proof.
  apply (summarize_failed_call_leaves_usage "t1" "u1" sample_summarization
           (call_env (CompletionRejects "timeout")) (db_t1 100 10) "timeout");
    reflexivity.
Defined.

(** Tenant [t1] with limit 12 has spent 10 credits: its summarize call
    passes the check (10 + 2 <= 12) while a question (10 + 3) would not. *)
Lemma failed_call_row_keeps_credits_witness :
  let env := call_env (CompletionRejects "timeout") in
  let db := db_t1 12 10 in
  (exists r,
     aiRequests (snd (summarizeText "t1" "u1" sample_summarization env db)) !! "req-1" = Some r /\
     ar_status r = FAILED /\ creditsUsed r = AI_SERVICE_CREDITS TEXT_SUMMARIZATION /\
     usages (snd (summarizeText "t1" "u1" sample_summarization env db)) = usages db /\
     usage_credits (snd (summarizeText "t1" "u1" sample_summarization env db)) "t1" "2026-10"
       < usage_credits db "t1" "2026-10" + creditsUsed r) /\
  fst (checkCredits "t1" (AI_SERVICE_CREDITS DOCUMENT_QA) "2026-10" db)
    = inl (TypeError PaymentRequiredException_not_a_constructor).
Proof.
  intros env db.
  destruct (failed_call_row_keeps_credits "t1" "u1" env db "timeout" sample_summarization sample_qa)
    as [H _]; [reflexivity|reflexivity|].
  split; [apply H; reflexivity|reflexivity].
Defined.

Lemma summarize_success_charges_fixed_cost_witness :
  exists db' r,
    summarizeText "t1" "u1" sample_summarization (call_env (CompletionResolves (Some "Short.")))
      (db_t1 100 10) =
      (inr {| summary := default "" (Some "Short.");
              originalLength := String.length (text sample_summarization);
              summaryLength := String.length (default "" (Some "Short."));
              resp_creditsUsed := 2 |}, db') /\
    aiRequests db' !! "req-1" = Some r /\
    ar_status r = COMPLETED /\ creditsUsed r = 2 /\
    usage_credits db' "t1" "2026-10" = usage_credits (db_t1 100 10) "t1" "2026-10" + 2 /\
    usage_requests db' "t1" "2026-10" = usage_requests (db_t1 100 10) "t1" "2026-10" + 1 /\
    (forall k, k <> ("t1", "2026-10") -> usages db' !! k = usages (db_t1 100 10) !! k).
Proof.
  apply (summarize_success_charges_fixed_cost "t1" "u1" sample_summarization
           (call_env (CompletionResolves (Some "Short."))) (db_t1 100 10) (Some "Short."));
    reflexivity.
Defined.

(** ** C7: the confidence heuristic *)

Lemma starts_with_spec pre s :
  starts_with pre s = true <-> exists post, s = String.append pre post.
Proof.
  revert s; induction pre as [|c pre IH]; intros s; simpl.
  - split; [intros _; exists s; reflexivity|reflexivity].
  - destruct s as [|d s']; simpl.
    + split; [discriminate|intros [post H]; discriminate].
    + rewrite andb_true_iff, Ascii.eqb_eq, IH. split.
      * intros [-> [post ->]]. exists post. reflexivity.
      * intros [post H]. injection H as -> ->. split; [reflexivity|]. exists post. reflexivity.
Qed.

Lemma includes_spec s sub : includes s sub = true <-> contains s sub.
Proof.
  unfold contains. induction s as [|c s IH]; simpl; rewrite orb_true_iff, starts_with_spec.
  - split.
    + intros [[post H]|H]; [|discriminate]. exists EmptyString, post. exact H.
    + intros [[|c pre] [post H]]; [left; exists post; exact H|discriminate].
  - rewrite IH. split.
    + intros [[post H]|[pre [post H]]].
      * exists EmptyString, post. exact H.
      * exists (String c pre), post. simpl. rewrite H. reflexivity.
    + intros [[|d pre] [post H]].
      * left. exists post. exact H.
      * right. injection H as -> H. exists pre, post. exact H.
Qed.

Lemma includes_false s sub : ~ contains s sub -> includes s sub = false.
Proof. intros H. apply not_true_is_false. rewrite includes_spec. exact H. Qed.

(** C7 (counterexample): "This is not mentioned." contains neither
    "cannot find" nor "according to", yet its confidence is 0.1, not 0.7. *)
Lemma confidence_not_mentioned_is_low :
  includes "This is not mentioned." "cannot find" = false /\
  includes "This is not mentioned." "according to" = false /\
  calculateConfidence "This is not mentioned." = 1 # 10 /\
  calculateConfidence "This is not mentioned." <> 7 # 10.
Proof. vm_compute. repeat split; discriminate. Qed.

(** C7 (amended): the confidence is 0.1 when the answer contains "cannot
    find" or "not mentioned"; otherwise 0.9 when it contains "specifically
    states" or "according to"; otherwise 0.7. *)
Theorem calculateConfidence_cases answer :
  ((contains answer "cannot find" \/ contains answer "not mentioned") ->
     calculateConfidence answer = 1 # 10) /\
  (~ contains answer "cannot find" -> ~ contains answer "not mentioned" ->
   (contains answer "specifically states" \/ contains answer "according to") ->
     calculateConfidence answer = 9 # 10) /\
  (~ contains answer "cannot find" -> ~ contains answer "not mentioned" ->
   ~ contains answer "specifically states" -> ~ contains answer "according to" ->
     calculateConfidence answer = 7 # 10).
Proof.
  unfold calculateConfidence. split; [|split].
  - intros [H|H]; apply includes_spec in H; rewrite H; [reflexivity|].
    rewrite orb_true_r. reflexivity.
  - intros H1 H2 [H|H]; rewrite (includes_false _ _ H1), (includes_false _ _ H2); simpl;
      apply includes_spec in H; rewrite H; [reflexivity|].
    rewrite orb_true_r. reflexivity.
  - intros H1 H2 H3 H4.
    rewrite (includes_false _ _ H1), (includes_false _ _ H2),
      (includes_false _ _ H3), (includes_false _ _ H4). reflexivity.
Qed.

(** ** C6: slug derivation *)

Lemma all_chars_cons p c s : all_chars p (String c s) = p c && all_chars p s.
Proof. reflexivity. Qed.

Lemma forallb_rev {A} (p : A -> bool) l : forallb p (rev l) = forallb p l.
Proof.
  induction l as [|a l IH]; [reflexivity|]. simpl.
  rewrite forallb_app, IH. simpl. rewrite andb_true_r, andb_comm. reflexivity.
Qed.

Lemma strip_disallowed_chars s : forallb slug_input_cp (strip_disallowed s) = true.
Proof.
  induction s as [|c s IH]; [reflexivity|]. unfold strip_disallowed in *. simpl.
  destruct (is_lower_alnum_cp c || is_js_space c || is_hyphen_cp c) eqn:E; [|exact IH].
  simpl. rewrite IH. unfold slug_input_cp. rewrite E. reflexivity.
Qed.

Lemma trim_start_cps_chars p s : forallb p s = true -> forallb p (trim_start_cps s) = true.
Proof.
  induction s as [|c s IH]; simpl; [auto|].
  rewrite andb_true_iff. intros [Hc Hs].
  destruct (is_js_space c); [auto|]. simpl. rewrite Hc, Hs. reflexivity.
Qed.

Lemma trim_cps_chars p s : forallb p s = true -> forallb p (trim_cps s) = true.
Proof.
  intros H. unfold trim_cps. rewrite forallb_rev.
  apply trim_start_cps_chars. rewrite forallb_rev. apply trim_start_cps_chars. exact H.
Qed.

Lemma collapse_runs_chars b s :
  forallb slug_input_cp s = true -> forallb slug_cp (collapse_runs b s) = true.
Proof.
  revert b; induction s as [|c s IH]; intros b; simpl; [auto|].
  rewrite andb_true_iff. intros [Hc Hs].
  destruct (is_js_space c || is_hyphen_cp c) eqn:E.
  - destruct b; [auto|]. simpl. rewrite IH by exact Hs. reflexivity.
  - simpl. rewrite IH by exact Hs. rewrite andb_true_r.
    unfold slug_input_cp in Hc. unfold slug_cp.
    apply orb_false_iff in E as [E1 E2]. rewrite E1, orb_false_r in Hc.
    rewrite E2, orb_false_r in Hc. rewrite Hc. reflexivity.
Qed.

Lemma collapse_runs_no_double b s :
  no_double_hyphen_cps (collapse_runs b s) = true /\
  (b = true -> starts_hyphen_cps (collapse_runs b s) = false).
Proof.
  revert b; induction s as [|c s IH]; intros b; simpl; [split; reflexivity|].
  destruct (is_js_space c || is_hyphen_cp c) eqn:E.
  - destruct b.
    + exact (IH true).
    + destruct (IH true) as [H1 H2]. split; [|discriminate].
      simpl. rewrite H2 by reflexivity. rewrite H1. reflexivity.
  - apply orb_false_iff in E as [_ E]. destruct (IH false) as [H1 _].
    split; [simpl; rewrite E, H1; reflexivity|intros _; exact E].
Qed.

Lemma firstn_chars {A} (p : A -> bool) n l :
  forallb p l = true -> forallb p (firstn n l) = true.
Proof.
  revert l; induction n as [|n IH]; intros l H; [reflexivity|].
  destruct l as [|c l]; [reflexivity|]. simpl in *.
  apply andb_true_iff in H as [Hc Hl]. rewrite Hc, IH by exact Hl. reflexivity.
Qed.

Lemma firstn_starts_hyphen n s :
  starts_hyphen_cps (firstn n s) = true -> starts_hyphen_cps s = true.
Proof. destruct n, s; simpl; auto; discriminate. Qed.

Lemma firstn_no_double n s :
  no_double_hyphen_cps s = true -> no_double_hyphen_cps (firstn n s) = true.
Proof.
  revert s; induction n as [|n IH]; intros s H; [reflexivity|].
  destruct s as [|c s]; [reflexivity|]. simpl in *.
  apply andb_true_iff in H as [Hc Hs]. rewrite IH by exact Hs. rewrite andb_true_r.
  destruct (is_hyphen_cp c) eqn:Ec; [|reflexivity]. simpl in *.
  destruct (starts_hyphen_cps (firstn n s)) eqn:Es; [|reflexivity].
  apply firstn_starts_hyphen in Es. rewrite Es in Hc. discriminate.
Qed.

(** Only a-z, 0-9 and "-" are left when [substring] runs: ASCII code
    points, each one UTF-16 code unit. *)
Lemma slug_cps_chars name : forallb slug_cp (slug_cps name) = true.
Proof.
  apply firstn_chars, collapse_runs_chars, trim_cps_chars, strip_disallowed_chars.
Qed.

Lemma slug_cps_no_double name : no_double_hyphen_cps (slug_cps name) = true.
Proof. apply firstn_no_double, collapse_runs_no_double. Qed.

Lemma is_lower_alnum_ascii c :
  (c < 256)%N -> is_lower_alnum (ascii_of_N c) = is_lower_alnum_cp c.
Proof.
  intros Hc. unfold is_lower_alnum, is_lower_alnum_cp, nat_of_ascii.
  rewrite N_ascii_embedding by exact Hc.
  apply Bool.eq_iff_eq_true. rewrite !orb_true_iff, !andb_true_iff, !Nat.leb_le, !N.leb_le.
  split; intros; lia.
Qed.

Lemma is_hyphen_ascii c : (c < 256)%N -> is_hyphen (ascii_of_N c) = is_hyphen_cp c.
Proof.
  intros Hc. unfold is_hyphen, is_hyphen_cp.
  apply Bool.eq_iff_eq_true. rewrite Ascii.eqb_eq, N.eqb_eq. split; intros H.
  - apply (f_equal N_of_ascii) in H. rewrite N_ascii_embedding in H by exact Hc. exact H.
  - subst c. reflexivity.
Qed.

Lemma slug_cp_lt c : slug_cp c = true -> (c < 128)%N.
Proof.
  unfold slug_cp, is_lower_alnum_cp, is_hyphen_cp.
  rewrite !orb_true_iff, !andb_true_iff, !N.leb_le, N.eqb_eq. lia.
Qed.

(** A list of slug code points is encoded one byte each. *)
Lemma utf8_encode_slug l :
  forallb slug_cp l = true ->
  String.length (utf8_encode l) = length l /\
  all_chars slug_char (utf8_encode l) = true /\
  starts_hyphen (utf8_encode l) = starts_hyphen_cps l /\
  (no_double_hyphen_cps l = true -> no_double_hyphen (utf8_encode l) = true).
Proof.
  induction l as [|c l IH]; intros H; [repeat split|].
  simpl in H. apply andb_true_iff in H as [Hc Hl].
  destruct (IH Hl) as (IH1 & IH2 & IH3 & IH4).
  assert (Hlt : (c < 128)%N) by exact (slug_cp_lt c Hc).
  assert (E : utf8_encode (c :: l) = String (ascii_of_N c) (utf8_encode l)).
  { simpl. apply N.ltb_lt in Hlt. rewrite Hlt. reflexivity. }
  assert (Hh : is_hyphen (ascii_of_N c) = is_hyphen_cp c) by (apply is_hyphen_ascii; lia).
  rewrite E. split; [simpl; rewrite IH1; reflexivity|].
  split.
  { rewrite all_chars_cons, IH2, andb_true_r. unfold slug_char.
    rewrite is_lower_alnum_ascii by lia. rewrite Hh. exact Hc. }
  split; [simpl; exact Hh|].
  intros Hd. simpl in Hd |- *. apply andb_true_iff in Hd as [Hd1 Hd2].
  rewrite Hh, IH3, IH4 by exact Hd2. rewrite Hd1. reflexivity.
Qed.

(** C6 (counterexample): for the name "Acme - Labs" the spec's procedure
    (whitespace runs become hyphens, nothing else merges) gives
    "acme---labs", while [generateSlug] trims and merges every run of
    whitespace and hyphens into one hyphen and gives "acme-labs". *)
Lemma slug_merges_hyphen_runs :
  claimed_slug "Acme - Labs" = "acme---labs" /\
  generateSlug "Acme - Labs" = "acme-labs" /\
  generateSlug "Acme - Labs" <> claimed_slug "Acme - Labs".
Proof. vm_compute. repeat split; discriminate. Qed.

(** C6 (amended): the slug of any name is the name lowercased (JavaScript's
    Unicode [toLowerCase]), stripped of characters other than a-z, 0-9,
    whitespace (JavaScript's [\s], the non-breaking space and the other
    Unicode spaces included) and hyphens, trimmed, with every run of
    whitespace and hyphens replaced by a single hyphen, and truncated to 50
    characters; so it has at most 50 characters, only a-z, 0-9 and hyphens,
    and never two hyphens in a row.  "Acme Inc", "Acme Inc!!" and
    "Acme<U+00A0>Inc" all give "acme-inc". *)
Theorem generateSlug_shape name :
  generateSlug name =
    utf8_encode (firstn 50 (collapse_runs false
                              (trim_cps (strip_disallowed (toLowerCase_cps (utf8_decode name)))))) /\
  String.length (generateSlug name) <= 50 /\
  all_chars slug_char (generateSlug name) = true /\
  no_double_hyphen (generateSlug name) = true /\
  generateSlug "Acme Inc" = "acme-inc" /\
  generateSlug "Acme Inc!!" = "acme-inc" /\
  generateSlug acme_nbsp = "acme-inc".
Proof.
  destruct (utf8_encode_slug (slug_cps name) (slug_cps_chars name)) as (H1 & H2 & _ & H4).
  split; [reflexivity|]. unfold generateSlug.
  split; [rewrite H1; apply firstn_le_length|].
  split; [exact H2|].
  split; [exact (H4 (slug_cps_no_double name))|].
  split; [|split]; vm_compute; reflexivity.
Qed.

(** ** Lookups on unique columns *)

Lemma find_row_some {K V} `{Countable K} (p : V -> bool) (m : gmap K V) v :
  find_row p m = Some v -> exists k, m !! k = Some v /\ p v = true.
Proof.
  unfold find_row.
  destruct (filter (fun kv => p kv.2 = true) (map_to_list m)) as [|[k v'] l] eqn:E;
    [discriminate|].
  intros Hv. injection Hv as <-.
  assert (Hin : (k, v') ∈ filter (fun kv => p kv.2 = true) (map_to_list m))
    by (rewrite E; left).
  apply list_elem_of_filter in Hin as [Hp Hin]. apply elem_of_map_to_list in Hin.
  exists k. split; assumption.
Qed.

Lemma find_row_none {K V} `{Countable K} (p : V -> bool) (m : gmap K V) :
  find_row p m = None -> forall k v, m !! k = Some v -> p v = false.
Proof.
  unfold find_row.
  destruct (filter (fun kv => p kv.2 = true) (map_to_list m)) eqn:E; [|discriminate].
  intros _ k v Hk. destruct (p v) eqn:Hp; [|reflexivity]. exfalso.
  apply (filter_nil_not_elem_of _ _ (k, v) E); [exact Hp|].
  apply elem_of_map_to_list. exact Hk.
Qed.

(** On a unique column, the lookup finds the one matching row. *)
Lemma find_row_unique {K V} `{Countable K} (p : V -> bool) (m : gmap K V) k v :
  m !! k = Some v -> p v = true ->
  (forall k' v', m !! k' = Some v' -> p v' = true -> k' = k) ->
  find_row p m = Some v.
Proof.
  intros Hk Hp Hu. destruct (find_row p m) as [v'|] eqn:E.
  - apply find_row_some in E as [k' [Hk' Hp']].
    rewrite (Hu k' v' Hk' Hp') in Hk'. congruence.
  - rewrite (find_row_none _ _ E k v Hk) in Hp. discriminate.
Qed.

(** ** C8: [customer.subscription.deleted] *)

Lemma subscription_update_found id f s db :
  subscriptions db !! id = Some s ->
  subscription_update id f db = (inr (f s), set_subscriptions <[id := f s]> db).
Proof.
  intros H. unfold subscription_update, bind, gets, modify, ret; simpl. rewrite H. reflexivity.
Qed.

Lemma updatePlan_found id p t db :
  tenants db !! id = Some t ->
  updatePlan id p db = (inr (with_plan p t), set_tenants <[id := with_plan p t]> db).
Proof.
  intros H. unfold updatePlan, TenantsService_findById, tenant_findUnique, tenant_update,
    bind, gets, modify, ret; simpl. rewrite H. simpl. rewrite H. reflexivity.
Qed.

Lemma updateSettings_found id st t db :
  tenants db !! id = Some t ->
  updateSettings id st db = (inr (with_settings st t), set_tenants <[id := with_settings st t]> db).
Proof.
  intros H. unfold updateSettings, TenantsService_findById, tenant_findUnique, tenant_update,
    bind, gets, modify, ret; simpl. rewrite H. simpl. rewrite H. reflexivity.
Qed.

(** C8: when the deleted Stripe subscription's id is the
    [stripeSubscriptionId] of a stored Subscription row [s] (a unique
    column), the handler succeeds; afterwards [s] is [canceled] on the
    [free] plan, and its tenant is on the [free] plan with the free plan's
    limits (100 credits, 10 requests per minute), whatever the plans and
    limits were before. *)
Theorem subscription_deleted_downgrades ss db k s t :
  subscriptions db !! k = Some s -> sub_id s = k ->
  stripeSubscriptionId s = Some (ss_id ss) ->
  (forall k' s', subscriptions db !! k' = Some s' ->
                 stripeSubscriptionId s' = Some (ss_id ss) -> k' = k) ->
  tenants db !! sub_tenantId s = Some t ->
  exists db' s' t',
    handleSubscriptionDeleted ss db = (inr tt, db') /\
    subscriptions db' !! sub_id s = Some s' /\ status s' = CANCELED /\ sub_plan s' = FREE /\
    tenants db' !! sub_tenantId s = Some t' /\ plan t' = FREE /\
    aiCreditsLimit (settings t') = Some (aiCreditsPerMonth (PLAN_FEATURES FREE)) /\
    apiRateLimit (settings t') = Some (apiRequestsPerMinute (PLAN_FEATURES FREE)).
Proof.
  intros Hk Hid Hsid Huniq Ht.
  assert (Hfind : subscription_findByStripeId (ss_id ss) db = (inr (Some s), db)).
  { unfold subscription_findByStripeId, gets. f_equal. f_equal. f_equal.
    apply (find_row_unique _ _ k); [exact Hk| |].
    - apply bool_decide_eq_true. exact Hsid.
    - intros k' s' Hk' Hp. apply bool_decide_eq_true in Hp. exact (Huniq k' s' Hk' Hp). }
  unfold handleSubscriptionDeleted. rewrite (bind_ok _ _ _ _ _ Hfind).
  assert (Hk' : subscriptions db !! sub_id s = Some s) by (rewrite Hid; exact Hk).
  rewrite (bind_ok _ _ _ _ _ (subscription_update_found _ canceled_free s db Hk')).
  set (db1 := set_subscriptions <[sub_id s := canceled_free s]> db).
  assert (Ht1 : tenants db1 !! sub_tenantId s = Some t) by exact Ht.
  rewrite (bind_ok _ _ _ _ _ (updatePlan_found _ FREE _ _ Ht1)).
  set (db2 := set_tenants <[sub_tenantId s := with_plan FREE t]> db1).
  assert (Ht2 : tenants db2 !! sub_tenantId s = Some (with_plan FREE t))
    by (unfold db2; simpl; apply lookup_insert_eq).
  rewrite (bind_ok _ _ _ _ _ (updateSettings_found _ _ _ _ Ht2)).
  eexists _, _, _. split; [reflexivity|].
  split; [simpl; apply lookup_insert_eq|].
  split; [reflexivity|]. split; [reflexivity|].
  split; [simpl; apply lookup_insert_eq|].
  repeat split.
Qed.

(** ** C10: [updateUser] never writes the password *)

Lemma apply_field_password u f :
  is_password_field f = false -> password (apply_field u f) = password u.
Proof. destruct u, f; simpl; congruence. Qed.

Lemma fold_without_password_keeps_password data u :
  password (fold_left apply_field (List.filter (fun f => negb (is_password_field f)) data) u)
  = password u.
Proof.
  revert u; induction data as [|f data IH]; intros u; [reflexivity|]. simpl.
  destruct (is_password_field f) eqn:E; simpl.
  - apply IH.
  - rewrite IH. apply apply_field_password. exact E.
Qed.

(** C10: whatever payload [data] is given, a call of [updateUser] either
    fails and leaves the store as it was, or succeeds and writes back
    only the target row, whose password hash is the one it had before;
    every other User row is untouched. *)
Theorem updateUser_keeps_password id tid role data db :
  match updateUser id tid role data db with
  | (inl _, db') => db' = db
  | (inr u', db') =>
      exists u, users db !! id = Some u /\ password u' = password u /\
        users db' = <[user_id u' := u']> (delete id (users db))
  end.
Proof.
  unfold updateUser, user_findUnique, bind, gets, throw; simpl.
  destruct (users db !! id) as [u|] eqn:E; simpl; [|reflexivity].
  destruct (negb (user_tenantId u =? tid)%string); [reflexivity|].
  destruct (existsb is_role_field data && negb (bool_decide (role = ADMIN))); [reflexivity|].
  unfold user_update, user_findUnique, bind, gets, modify, ret, throw; simpl. rewrite E.
  destruct (_ && _); [reflexivity|].
  exists u. split; [reflexivity|]. split; [apply fold_without_password_keeps_password|].
  reflexivity.
Qed.

Lemma subscription_deleted_downgrades_witness :
  exists db' s' t',
    handleSubscriptionDeleted deleted_sub db_pro = (inr tt, db') /\
    subscriptions db' !! sub_id sub_pro = Some s' /\ status s' = CANCELED /\ sub_plan s' = FREE /\
    tenants db' !! sub_tenantId sub_pro = Some t' /\ plan t' = FREE /\
    aiCreditsLimit (settings t') = Some (aiCreditsPerMonth (PLAN_FEATURES FREE)) /\
    apiRateLimit (settings t') = Some (apiRequestsPerMinute (PLAN_FEATURES FREE)).
Proof.
  apply (subscription_deleted_downgrades deleted_sub db_pro "s1" sub_pro tenant_pro);
    [reflexivity|reflexivity|reflexivity| |reflexivity].
  intros k' s' Hk' _. simpl in Hk'. apply lookup_singleton_Some in Hk' as [Hk _].
  symmetry. exact Hk.
Defined.

(** ** C5: registration *)

Lemma tenant_create_cases t db :
  tenant_create t db = (inr t, set_tenants <[tenant_id t := t]> db) \/
  exists e, tenant_create t db = (inl e, db).
Proof.
  unfold tenant_create, bind, gets, modify, ret, throw; simpl.
  destruct (_ || _); [right; eexists; reflexivity|left; reflexivity].
Qed.

Lemma user_create_cases u db :
  user_create u db = (inr u, set_users <[user_id u := u]> db) \/
  exists e, user_create u db = (inl e, db).
Proof.
  unfold user_create, bind, gets, modify, ret, throw; simpl.
  destruct (_ || _); [right; eexists; reflexivity|left; reflexivity].
Qed.

Lemma teamMember_create_cases m db :
  teamMember_create m db = (inr m, set_teamMembers <[tm_id m := m]> db) \/
  exists e, teamMember_create m db = (inl e, db).
Proof.
  unfold teamMember_create, bind, gets, modify, ret, throw; simpl.
  destruct (bool_decide _); [right; eexists; reflexivity|left; reflexivity].
Qed.

Lemma subscription_create_cases s db :
  subscription_create s db = (inr s, set_subscriptions <[sub_id s := s]> db) \/
  exists e, subscription_create s db = (inl e, db).
Proof.
  unfold subscription_create, bind, gets, modify, ret, throw; simpl.
  destruct (_ || _); [right; eexists; reflexivity|left; reflexivity].
Qed.

(** The store after the four inserts of a registration. *)
Lemma register_tx_cases req env sl db :
  register_tx req env sl db =
    (inr (new_user req env (tenant_uuid env), new_tenant req env sl),
     set_subscriptions <[subscription_uuid env := new_subscription env (tenant_uuid env)]>
       (set_teamMembers <[member_uuid env := new_member env (user_uuid env) (tenant_uuid env)]>
          (set_users <[user_uuid env := new_user req env (tenant_uuid env)]>
             (set_tenants <[tenant_uuid env := new_tenant req env sl]> db)))) \/
  exists e db', register_tx req env sl db = (inl e, db').
Proof.
  unfold register_tx.
  destruct (tenant_create_cases (new_tenant req env sl) db) as [H1|[e H1]];
    [rewrite (bind_ok _ _ _ _ _ H1)|right; rewrite (bind_err _ _ _ _ _ H1); eauto].
  cbv beta; match goal with |- context [bind (user_create ?u) _ ?d] =>
    destruct (user_create_cases u d) as [H2|[e H2]];
    [rewrite (bind_ok _ _ _ _ _ H2)|right; rewrite (bind_err _ _ _ _ _ H2); eauto] end.
  cbv beta; match goal with |- context [bind (teamMember_create ?u) _ ?d] =>
    destruct (teamMember_create_cases u d) as [H3|[e H3]];
    [rewrite (bind_ok _ _ _ _ _ H3)|right; rewrite (bind_err _ _ _ _ _ H3); eauto] end.
  cbv beta; match goal with |- context [bind (subscription_create ?u) _ ?d] =>
    destruct (subscription_create_cases u d) as [H4|[e H4]];
    [rewrite (bind_ok _ _ _ _ _ H4)|right; rewrite (bind_err _ _ _ _ _ H4); eauto] end.
  left. reflexivity.
Qed.

(** C5: [register] fails with [Conflict] and leaves the store unchanged
    when the email is already registered or when the slug derived from the
    tenant name is already some tenant's slug; and every call either fails
    with the store unchanged or succeeds having added exactly the new
    Tenant, User, TeamMember and Subscription rows (no other table
    changes): no partial subset of the four is ever left behind. *)
Theorem register_conflicts_and_atomic req env db :
  ((exists k u, users db !! k = Some u /\ email u = reg_email req) ->
     register req env db = (inl (Conflict "User with this email already exists"), db)) /\
  ((exists k t, tenants db !! k = Some t /\ slug t = generateSlug (tenantName req)) ->
     exists msg, register req env db = (inl (Conflict msg), db)) /\
  match register req env db with
  | (inl _, db') => db' = db
  | (inr r, db') =>
      auth_tenant r = new_tenant req env (generateSlug (tenantName req)) /\
      auth_user r = new_user req env (tenant_uuid env) /\
      tenants db' = <[tenant_uuid env := auth_tenant r]> (tenants db) /\
      users db' = <[user_uuid env := auth_user r]> (users db) /\
      teamMembers db' =
        <[member_uuid env := new_member env (user_uuid env) (tenant_uuid env)]> (teamMembers db) /\
      subscriptions db' =
        <[subscription_uuid env := new_subscription env (tenant_uuid env)]> (subscriptions db) /\
      usages db' = usages db /\ aiRequests db' = aiRequests db /\
      webhookEvents db' = webhookEvents db
  end.
Proof.
  unfold register, UsersService_findByEmail, user_findByEmailRow,
    TenantsService_findBySlug, tenant_findBySlugRow, bind, gets, throw; simpl.
  destruct (find_row (fun u => (email u =? reg_email req)%string) (users db)) as [u|] eqn:E1.
  { split; [reflexivity|]. split; [eauto|reflexivity]. }
  split.
  { intros (k & u & Hk & He). apply (find_row_none _ _ E1) in Hk.
    rewrite He, String.eqb_refl in Hk. discriminate. }
  destruct (find_row (fun t => (slug t =? generateSlug (tenantName req))%string) (tenants db))
    as [t|] eqn:E2.
  { split; [eauto|reflexivity]. }
  split.
  { intros (k & t & Hk & Hs). apply (find_row_none _ _ E2) in Hk.
    rewrite Hs, String.eqb_refl in Hk. discriminate. }
  destruct (register_tx_cases req env (generateSlug (tenantName req)) db) as [H|(e & db' & H)].
  - unfold try_catch, prisma_transaction. rewrite H. simpl.
    repeat split; reflexivity.
  - unfold try_catch, prisma_transaction. rewrite H. reflexivity.
Qed.

(** ** C4: the webhook handler *)

Create HintDb keeps.

Lemma keeps_ret {A} (a : A) : keeps_webhooks (ret a).
Proof. intros db. reflexivity. Qed.
Lemma keeps_throw {A} e : keeps_webhooks (throw e : M A).
Proof. intros db. reflexivity. Qed.
Lemma keeps_gets {A} (f : DB -> A) : keeps_webhooks (gets f).
Proof. intros db. reflexivity. Qed.
Lemma keeps_bind {A B} (m : M A) (k : A -> M B) :
  keeps_webhooks m -> (forall a, keeps_webhooks (k a)) -> keeps_webhooks (bind m k).
Proof.
  intros Hm Hk db. unfold bind. specialize (Hm db).
  destruct (m db) as [[e|a] db'] eqn:E; simpl in *; [exact Hm|]. rewrite Hk. exact Hm.
Qed.
Lemma keeps_subscriptions f : keeps_webhooks (modify (set_subscriptions f)).
Proof. intros db. reflexivity. Qed.
Lemma keeps_tenants f : keeps_webhooks (modify (set_tenants f)).
Proof. intros db. reflexivity. Qed.
#[local] Hint Resolve keeps_ret keeps_throw keeps_gets keeps_subscriptions keeps_tenants : keeps.

Ltac keeps_solve :=
  repeat match goal with
  | |- keeps_webhooks (bind _ _) => apply keeps_bind; intros
  | |- keeps_webhooks (match ?x with _ => _ end) => destruct x
  | |- keeps_webhooks (if ?b then _ else _) => destruct b
  | |- _ => solve [auto with keeps]
  end.

Lemma keeps_subscription_update id f : keeps_webhooks (subscription_update id f).
Proof. unfold subscription_update. keeps_solve. Qed.
Lemma keeps_tenant_update id f : keeps_webhooks (tenant_update id f).
Proof. unfold tenant_update, tenant_findUnique. keeps_solve. Qed.
Lemma keeps_updatePlan id p : keeps_webhooks (updatePlan id p).
Proof. unfold updatePlan, TenantsService_findById, tenant_findUnique. keeps_solve;
  apply keeps_tenant_update. Qed.
Lemma keeps_updateSettings id st : keeps_webhooks (updateSettings id st).
Proof. unfold updateSettings, TenantsService_findById, tenant_findUnique. keeps_solve;
  apply keeps_tenant_update. Qed.
#[local] Hint Resolve keeps_subscription_update keeps_updatePlan keeps_updateSettings : keeps.

Lemma keeps_dispatch event : keeps_webhooks (dispatch event).
Proof.
  unfold dispatch, handleSubscriptionCreated, handleSubscriptionUpdated,
    handleSubscriptionDeleted, subscription_findByTenant, subscription_findByStripeId.
  keeps_solve.
Qed.

Lemma webhookEvent_create_fresh (default_id : nat -> string) ty data db :
  webhookEvents db !! default_id (webhookEvents_created db) = None ->
  webhookEvent_create default_id ty data db =
    (inr {| we_id := default_id (webhookEvents_created db); we_type := ty; we_data := data;
            processed := false |},
     set_webhookEvents
       <[default_id (webhookEvents_created db) :=
           {| we_id := default_id (webhookEvents_created db); we_type := ty; we_data := data;
              processed := false |}]> S db).
Proof.
  intros H. unfold webhookEvent_create, bind, gets, modify, ret; simpl. rewrite H. reflexivity.
Qed.

(** Whatever id the column default gives the new row, as long as it is not
    the provider's event id: the row is stored (unprocessed) before the
    dispatch runs; a dispatch that throws makes the handler throw the same
    error; a dispatch that succeeds is followed by an update of the row
    keyed by the event id, which does not exist, so the handler throws
    Prisma's RecordNotFound.  Either way the stored row stays
    [processed = false]. *)
Lemma webhook_row_never_processed (default_id : nat -> string) secret event db :
  (exists k, secret = Some k /\ k <> EmptyString) ->
  webhookEvents db !! default_id (webhookEvents_created db) = None ->
  default_id (webhookEvents_created db) <> ev_id event ->
  webhookEvents db !! ev_id event = None ->
  let row := {| we_id := default_id (webhookEvents_created db); we_type := ev_type event;
                we_data := ev_data event; processed := false |} in
  let db1 := set_webhookEvents <[we_id row := row]> S db in
  (forall e db2, dispatch event db1 = (inl e, db2) ->
     handleStripeWebhook default_id secret (Some event) db = (inl e, db2)) /\
  (forall db2, dispatch event db1 = (inr tt, db2) ->
     handleStripeWebhook default_id secret (Some event) db = (inl PrismaRecordNotFound, db2)) /\
  webhookEvents (snd (handleStripeWebhook default_id secret (Some event) db)) !! we_id row
    = Some row /\
  webhookEvents (snd (handleStripeWebhook default_id secret (Some event) db)) !! ev_id event
    = None.
Proof.
  intros (k & -> & Hk) Hfresh Hne Hnone row db1.
  assert (Hrun : handleStripeWebhook default_id (Some k) (Some event) db =
                 try_catch (dispatch event ;; webhookEvent_markProcessed (ev_id event) ;; ret tt)
                           (fun error => throw error) db1).
  { unfold handleStripeWebhook. destruct k as [|c k]; [congruence|].
    rewrite (bind_ok _ _ _ _ _ (webhookEvent_create_fresh _ _ _ _ Hfresh)). reflexivity. }
  assert (Hdisp : forall r db2, dispatch event db1 = (r, db2) ->
                  webhookEvents db2 = webhookEvents db1).
  { intros r db2 H. pose proof (keeps_dispatch event db1) as K. rewrite H in K. exact K. }
  assert (Herr : forall e db2, dispatch event db1 = (inl e, db2) ->
            handleStripeWebhook default_id (Some k) (Some event) db = (inl e, db2)).
  { intros e db2 H. rewrite Hrun. rewrite (try_catch_err _ _ _ _ _ (bind_err _ _ _ _ _ H)).
    reflexivity. }
  assert (Hok : forall db2, dispatch event db1 = (inr tt, db2) ->
            handleStripeWebhook default_id (Some k) (Some event) db =
              (inl PrismaRecordNotFound, db2)).
  { intros db2 H. rewrite Hrun. erewrite try_catch_err; [reflexivity|].
    rewrite (bind_ok _ _ _ _ _ H).
    unfold webhookEvent_markProcessed, bind, gets, throw; simpl.
    rewrite (Hdisp _ _ H). unfold db1. simpl. rewrite lookup_insert_ne by exact Hne.
    rewrite Hnone. reflexivity. }
  assert (Hlook : forall db2, webhookEvents db2 = webhookEvents db1 ->
            webhookEvents db2 !! we_id row = Some row /\
            webhookEvents db2 !! ev_id event = None).
  { intros db2 ->. unfold db1. simpl. split; [apply lookup_insert_eq|].
    rewrite lookup_insert_ne by exact Hne. exact Hnone. }
  destruct (dispatch event db1) as [[e|[]] db2] eqn:E.
  - rewrite (Herr e db2 eq_refl). destruct (Hlook db2 (Hdisp _ _ eq_refl)) as [L1 L2].
    split; [intros; congruence|]. split; [intros; congruence|]. split; simpl; assumption.
  - rewrite (Hok db2 eq_refl). destruct (Hlook db2 (Hdisp _ _ eq_refl)) as [L1 L2].
    split; [intros; congruence|]. split; [intros; congruence|]. split; simpl; assumption.
Qed.

(** C4 (divergence): a verified [invoice.payment_succeeded] event
    [evt_1], whose dispatch succeeds, on an empty store: the row is
    created under the column-default id, the update keyed by [evt_1]
    finds no row, and the handler throws RecordNotFound; the stored row
    stays [processed = false] and no row is keyed by the event id. *)
Theorem webhook_success_not_marked_processed :
  fst (dispatch paid_invoice_event
         (snd (webhookEvent_create sample_cuid (ev_type paid_invoice_event)
                 (ev_data paid_invoice_event) empty_db))) = inr tt /\
  fst (handleStripeWebhook sample_cuid (Some "whsec_test") (Some paid_invoice_event) empty_db)
    = inl PrismaRecordNotFound /\
  webhookEvents (snd (handleStripeWebhook sample_cuid (Some "whsec_test")
                        (Some paid_invoice_event) empty_db)) !! "clx0webhook0"
    = Some {| we_id := "clx0webhook0"; we_type := "invoice.payment_succeeded";
              we_data := "{object: invoice in_1}"; processed := false |} /\
  webhookEvents (snd (handleStripeWebhook sample_cuid (Some "whsec_test")
                        (Some paid_invoice_event) empty_db)) !! "evt_1" = None.
Proof. vm_compute. repeat split. Qed.

(** The spec's end-to-end example: "Acme Inc" registers with slug
    [acme-inc]; a second registration as "Acme Inc!!" derives the same
    slug and fails with [Conflict], leaving the store as it was. *)
Example register_acme_twice :
  let first := register (acme_request "Acme Inc" "ann@acme.test") (reg_env "1") empty_db in
  (exists r, fst first = inr r /\ slug (auth_tenant r) = "acme-inc") /\
  register (acme_request "Acme Inc!!" "bob@acme.test") (reg_env "2") (snd first) =
    (inl (Conflict "Organization name is already taken"), snd first).
Proof.
  split.
  - eexists. split; [vm_compute; reflexivity|]. vm_compute. reflexivity.
  - vm_compute. reflexivity.
Qed.

Lemma webhook_row_never_processed_witness :
  let row := {| we_id := "clx0webhook0"; we_type := "invoice.payment_succeeded";
                we_data := "{object: invoice in_1}"; processed := false |} in
  webhookEvents (snd (handleStripeWebhook sample_cuid (Some "whsec_test")
                        (Some paid_invoice_event) empty_db)) !! "clx0webhook0" = Some row.
Proof.
  intros row.
  destruct (webhook_row_never_processed sample_cuid (Some "whsec_test") paid_invoice_event
              empty_db) as (_ & _ & H & _);
    [eexists; split; [reflexivity|discriminate]|reflexivity|vm_compute; discriminate|reflexivity|].
  exact H.
Defined.

(* ------------------------------------------------------------------ *)
(** ** Further properties of the services *)

(** [incrementUsage]: two successive increments of the same tenant and month have the effect of one increment by the sums, whether or not the usage row existed. *)
Lemma incrementUsage_compose tid a1 r1 a2 r2 m db :
  (incrementUsage tid a1 r1 m ;; incrementUsage tid a2 r2 m) db =
  incrementUsage tid (a1 + a2) (r1 + r2) m db.
Proof.
  unfold incrementUsage, bind, modify, set_usages; simpl.
  destruct (usages db !! (tid, m)) as [u|] eqn:E; simpl;
    rewrite lookup_insert_eq, insert_insert_eq; simpl; rewrite ?Nat.add_assoc; reflexivity.
Qed.

(** [getTenantUsage] on an existing tenant writes nothing and reports the stored counters of the month (zero without a usage row); both reported limits are positive, and a positive stored limit is reported as is. *)
Lemma getTenantUsage_report id m db t :
  tenants db !! id = Some t ->
  exists u, getTenantUsage id m db = (inr u, db) /\
    currentMonth u = m /\
    tu_aiCreditsUsed u = usage_credits db id m /\
    tu_apiRequestsCount u = usage_requests db id m /\
    0 < tu_aiCreditsLimit u /\ 0 < tu_apiRateLimit u /\
    (forall l, aiCreditsLimit (settings t) = Some l -> 0 < l -> tu_aiCreditsLimit u = l) /\
    (forall l, apiRateLimit (settings t) = Some l -> 0 < l -> tu_apiRateLimit u = l).
Proof.
  intros Ht. unfold getTenantUsage, TenantsService_findById, tenant_findUnique,
    usage_findUnique, bind, gets, ret. simpl. rewrite Ht.
  eexists. split; [reflexivity|]. simpl.
  unfold usage_credits, usage_requests. rewrite !or_default_zero.
  split; [reflexivity|]. split; [reflexivity|]. split; [reflexivity|].
  destruct t as [? ? ? ? ? [al rl cb]]; simpl.
  split; [destruct al as [[|]|]; simpl; lia|].
  split; [destruct rl as [[|]|]; simpl; lia|].
  split; intros l -> Hl; destruct l; [lia|reflexivity|lia|reflexivity].
Qed.





(** The run of [answerQuestion] when the credit check passes and the completion resolves. *)
Lemma answer_success_run tid uid req env db c :
  checkCredits tid (AI_SERVICE_CREDITS DOCUMENT_QA) (env_month env) db = (inr tt, db) ->
  aiRequests db !! request_uuid env = None ->
  completion env = CompletionResolves c ->
  let row := processing_row tid uid DOCUMENT_QA env in
  let db2 := set_aiRequests
               <[request_uuid env := completed_with (default "" c)
                                       (now_done env - now_start env)%Z row]>
               (set_aiRequests <[request_uuid env := row]> db) in
  answerQuestion tid uid req env db =
    (inr {| answer := default "" c; confidence := calculateConfidence (default "" c);
            sourceText := extractSourceText (documentText req) (default "" c);
            qa_creditsUsed := 3 |},
     snd (incrementUsage tid (AI_SERVICE_CREDITS DOCUMENT_QA) 1 (env_month env) db2)).
Proof.
  intros Hc Hf Hres row db2. unfold answerQuestion.
  rewrite (bind_ok _ _ _ _ _ (create_processing_row_ok _ _ _ _ _ Hc Hf)).
  erewrite try_catch_ok;
    [| rewrite (openai_resolves_bind _ _ _ _ Hres); apply success_run].
  reflexivity.
Qed.



(** A successful [answerQuestion] returns the answer with its confidence, its source sentence and 3 credits, stores the request row COMPLETED with the answer and 3 credits, adds 3 credits and 1 request to the month's usage and touches no other usage row. *)
Theorem answer_success_charges_fixed_cost tid uid req env db c :
  checkCredits tid (AI_SERVICE_CREDITS DOCUMENT_QA) (env_month env) db = (inr tt, db) ->
  aiRequests db !! request_uuid env = None ->
  completion env = CompletionResolves c ->
  exists db' r,
    answerQuestion tid uid req env db =
      (inr {| answer := default "" c; confidence := calculateConfidence (default "" c);
              sourceText := extractSourceText (documentText req) (default "" c);
              qa_creditsUsed := 3 |}, db') /\
    aiRequests db' !! request_uuid env = Some r /\
    ar_status r = COMPLETED /\ output r = Some (default "" c) /\ creditsUsed r = 3 /\
    usage_credits db' tid (env_month env) = usage_credits db tid (env_month env) + 3 /\
    usage_requests db' tid (env_month env) = usage_requests db tid (env_month env) + 1 /\
    (forall k, k <> (tid, env_month env) -> usages db' !! k = usages db !! k).
Proof.
  intros Hc Hf Hres. rewrite (answer_success_run _ _ _ _ _ _ Hc Hf Hres).
  match goal with |- context [snd (incrementUsage ?a ?b ?c ?d ?e)] =>
    destruct (incrementUsage_counts a b c d e) as (H1 & H2 & H3) end.
  eexists _, _. split; [reflexivity|].
  split; [simpl; rewrite lookup_insert_eq; reflexivity|].
  split; [reflexivity|]. split; [reflexivity|]. split; [reflexivity|].
  split; [rewrite H1; reflexivity|].
  split; [rewrite H2; reflexivity|].
  intros k Hk. rewrite (H3 k Hk). reflexivity.
Qed.

(** [split_runs] never returns the empty list. *)
Lemma split_runs_nonempty p b cur s : split_runs p b cur s <> [].
Proof.
  revert b cur; induction s as [|c s IH]; intros b cur; simpl; [discriminate|].
  destruct (p c); [destruct b; [apply IH|discriminate]|apply IH].
Qed.

(** Every string includes the empty string. *)
Lemma includes_empty s : includes s EmptyString = true.
Proof. destruct s; reflexivity. Qed.

(** [extractSourceText] with an empty answer returns the first sentence of the document, trimmed. *)
Theorem extractSourceText_empty_answer document :
  extractSourceText document EmptyString =
    Some (trim (hd EmptyString (split_runs is_sentence_end false EmptyString document))).
Proof.
  unfold extractSourceText. simpl.
  pose proof (split_runs_nonempty is_sentence_end false EmptyString document) as Hne.
  destruct (split_runs is_sentence_end false EmptyString document) as [|s l]; [congruence|].
  simpl. rewrite includes_empty. reflexivity.
Qed.

(** [validateUser] writes nothing and returns the user with that email exactly when bcrypt accepts the password; a bcrypt error is caught as [None]. *)
Lemma validateUser_run em pw env db :
  validateUser em pw env db =
    (inr (match find_row (fun u => String.eqb (email u) em) (users db) with
          | Some u => match bcrypt_compare env pw (password u) with
                      | Some true => Some u
                      | _ => None
                      end
          | None => None
          end), db).
Proof.
  unfold validateUser, UsersService_findByEmail, user_findByEmailRow, try_catch, bind, gets,
    ret, throw; simpl.
  destruct (find_row _ (users db)) as [u|]; [|reflexivity].
  destruct (bcrypt_compare env pw (password u)) as [[|]|]; reflexivity.
Qed.

(** [login] never writes to the store. *)
Lemma login_state req env db : snd (login req env db) = db.
Proof.
  unfold login. unfold bind at 1. rewrite validateUser_run.
  destruct (find_row (fun u => String.eqb (email u) (login_email req)) (users db)) as [u|];
    [|reflexivity].
  destruct (bcrypt_compare env (login_password req) (password u)) as [[|]|]; try reflexivity.
  destruct (negb (isActive u)); [reflexivity|].
  unfold bind, TenantsService_findById, tenant_findUnique, gets, throw, ret; simpl.
  destruct (tenants db !! user_tenantId u) as [t|]; [|reflexivity].
  destruct (tenant_isActive t); reflexivity.
Qed.

(** [login] never writes to the store, and when no user with the requested email accepts the password it throws [Unauthorized "Invalid credentials"]. *)
Theorem login_rejects_unmatched_password req env db :
  snd (login req env db) = db /\
  ((forall k u, users db !! k = Some u -> email u = login_email req ->
                bcrypt_compare env (login_password req) (password u) <> Some true) ->
   login req env db = (inl (Unauthorized "Invalid credentials"), db)).
Proof.
  split; [apply login_state|]. intros Hno.
  unfold login. unfold bind at 1. rewrite validateUser_run.
  destruct (find_row (fun u => String.eqb (email u) (login_email req)) (users db)) as [u|] eqn:E;
    [|reflexivity].
  apply find_row_some in E as (k & Hk & He). apply String.eqb_eq in He.
  specialize (Hno k u Hk He).
  destruct (bcrypt_compare env (login_password req) (password u)) as [[|]|];
    [congruence|reflexivity|reflexivity].
Qed.

(** A successful [login] changed nothing and returns a stored, active user with the requested email whose hash accepts the password, together with that user's tenant, which is active. *)
Theorem login_success_guarantees req env db r db' :
  login req env db = (inr r, db') ->
  db' = db /\
  (exists k, users db !! k = Some (auth_user r)) /\
  email (auth_user r) = login_email req /\
  bcrypt_compare env (login_password req) (password (auth_user r)) = Some true /\
  isActive (auth_user r) = true /\
  tenants db !! user_tenantId (auth_user r) = Some (auth_tenant r) /\
  tenant_isActive (auth_tenant r) = true.
Proof.
  intros H. pose proof (login_state req env db) as Hs. rewrite H in Hs. simpl in Hs. subst db'.
  revert H. unfold login. unfold bind at 1. rewrite validateUser_run.
  destruct (find_row (fun u => String.eqb (email u) (login_email req)) (users db)) as [u|] eqn:E;
    [|discriminate].
  apply find_row_some in E as (k & Hk & He). apply String.eqb_eq in He.
  destruct (bcrypt_compare env (login_password req) (password u)) as [[|]|] eqn:Hb;
    try discriminate.
  destruct (isActive u) eqn:Ha; [|discriminate]. simpl.
  unfold bind, TenantsService_findById, tenant_findUnique, gets, throw, ret; simpl.
  destruct (tenants db !! user_tenantId u) as [t|] eqn:Et; [|discriminate].
  destruct (tenant_isActive t) eqn:Eta; [|discriminate].
  intros H. injection H as <-. simpl. repeat split; eauto.
Qed.

(** The run of [AuthService.refreshToken]. *)
Lemma refreshToken_run env token db :
  AuthService_refreshToken env token db =
    match jwt_verify env token with
    | Some sub =>
        match users db !! sub with
        | Some _ => (inr (refreshed_access env), db)
        | None => (inl (Unauthorized "Invalid refresh token"), db)
        end
    | None => (inl (Unauthorized "Invalid refresh token"), db)
    end.
Proof.
  unfold AuthService_refreshToken, UsersService_findById, user_findUnique, try_catch, bind,
    gets, ret, throw; simpl.
  destruct (jwt_verify env token) as [sub|]; [|reflexivity].
  destruct (users db !! sub); reflexivity.
Qed.


(** A successful [register] found the email and slug free and committed the four rows of its transaction. *)
Lemma register_success_run req env db r db' :
  register req env db = (inr r, db') ->
  find_row (fun u => String.eqb (email u) (reg_email req)) (users db) = None /\
  r = {| auth_user := new_user req env (tenant_uuid env);
         auth_tenant := new_tenant req env (generateSlug (tenantName req));
         accessToken := signed_access env; refreshToken := signed_refresh env |} /\
  db' = set_subscriptions <[subscription_uuid env := new_subscription env (tenant_uuid env)]>
          (set_teamMembers <[member_uuid env := new_member env (user_uuid env) (tenant_uuid env)]>
             (set_users <[user_uuid env := new_user req env (tenant_uuid env)]>
                (set_tenants <[tenant_uuid env := new_tenant req env (generateSlug (tenantName req))]>
                   db))).
Proof.
  unfold register, UsersService_findByEmail, user_findByEmailRow,
    TenantsService_findBySlug, tenant_findBySlugRow, bind, gets, throw; simpl.
  destruct (find_row (fun u => (email u =? reg_email req)%string) (users db)) eqn:E1;
    [discriminate|].
  destruct (find_row (fun t => (slug t =? generateSlug (tenantName req))%string) (tenants db));
    [discriminate|].
  destruct (register_tx_cases req env (generateSlug (tenantName req)) db) as [H|(e & db1 & H)];
    unfold try_catch, prisma_transaction; rewrite H; [|discriminate].
  simpl. intros Heq. injection Heq as <- <-. auto.
Qed.

(** After a successful [register], logging in with the registered email and password (accepted by bcrypt against the stored hash) returns the registered user and tenant. *)
Theorem register_then_login req renv lenv db r db' :
  register req renv db = (inr r, db') ->
  bcrypt_compare lenv (reg_password req) (hashedPassword renv) = Some true ->
  login {| login_email := reg_email req; login_password := reg_password req |} lenv db' =
    (inr {| auth_user := auth_user r; auth_tenant := auth_tenant r;
            accessToken := login_access lenv; refreshToken := login_refresh lenv |}, db').
Proof.
  intros H Hb. destruct (register_success_run _ _ _ _ _ H) as (E1 & -> & ->).
  set (nu := new_user req renv (tenant_uuid renv)).
  unfold login. unfold bind at 1. rewrite validateUser_run. simpl.
  assert (Hf : find_row (fun u => (email u =? reg_email req)%string)
                 (<[user_uuid renv := nu]> (users db)) = Some nu).
  { apply (find_row_unique _ _ (user_uuid renv)); [apply lookup_insert_eq|apply String.eqb_refl|].
    intros k' v' Hk' Hp. destruct (decide (k' = user_uuid renv)) as [->|Hne]; [reflexivity|].
    rewrite lookup_insert_ne in Hk' by congruence.
    rewrite (find_row_none _ _ E1 _ _ Hk') in Hp. discriminate. }
  rewrite Hf. simpl. rewrite Hb. simpl.
  unfold bind, TenantsService_findById, tenant_findUnique, gets, ret; simpl.
  rewrite lookup_insert_eq. reflexivity.
Qed.

(** The run of [deactivateUser] by an admin on a user of the same tenant. *)
Lemma deactivateUser_run id tid db u :
  users db !! id = Some u -> user_id u = id -> user_tenantId u = tid ->
  deactivateUser id tid ADMIN db =
    (inr (apply_field u (F_isActive false)), set_users <[id := apply_field u (F_isActive false)]> db).
Proof.
  intros Hu Hid Ht.
  unfold deactivateUser, UsersService_findById, user_findUnique, bind, gets, throw; simpl.
  rewrite Hu. simpl. rewrite Ht, String.eqb_refl. simpl.
  unfold user_update, user_findUnique, bind, gets, modify, ret, throw; simpl. rewrite Hu.
  assert (Hid' : user_id (apply_field u (F_isActive false)) = id) by (destruct u; exact Hid).
  rewrite Hid', String.eqb_refl. simpl.
  unfold set_users. simpl. rewrite insert_delete_eq. reflexivity.
Qed.

(** [deactivateUser]: a non-admin is refused, a missing user gives [NotFound], a user of another tenant is refused, and each refusal leaves the store unchanged; otherwise only the user's [isActive] becomes false. *)
Theorem deactivateUser_outcomes id tid r db :
  (r <> ADMIN ->
     deactivateUser id tid r db = (inl (Forbidden "Only admins can deactivate users"), db)) /\
  (users db !! id = None ->
     deactivateUser id tid ADMIN db = (inl (NotFound "User not found"), db)) /\
  (forall u, users db !! id = Some u -> user_tenantId u <> tid ->
     deactivateUser id tid ADMIN db =
       (inl (Forbidden "Cannot deactivate user from different tenant"), db)) /\
  (forall u, users db !! id = Some u -> user_id u = id -> user_tenantId u = tid ->
     exists u', deactivateUser id tid ADMIN db = (inr u', set_users <[id := u']> db) /\
       isActive u' = false /\
       u' = {| user_id := user_id u; email := email u; name := name u; password := password u;
               role := role u; user_tenantId := user_tenantId u; avatar := avatar u;
               isActive := false |}).
Proof.
  split; [|split; [|split]].
  - intros Hr. unfold deactivateUser. destruct r; [congruence|reflexivity].
  - intros Hu. unfold deactivateUser, UsersService_findById, user_findUnique, bind, gets, throw;
      simpl. rewrite Hu. reflexivity.
  - intros u Hu Ht. unfold deactivateUser, UsersService_findById, user_findUnique, bind, gets,
      throw; simpl. rewrite Hu. simpl.
    destruct (String.eqb_spec (user_tenantId u) tid); [congruence|reflexivity].
  - intros u Hu Hid Ht. rewrite (deactivateUser_run _ _ _ _ Hu Hid Ht).
    eexists. split; [reflexivity|]. destruct u; split; reflexivity.
Qed.

(** Once [deactivateUser] succeeded, [login] with the right password is refused with "Account is deactivated", while [refreshToken] with a token for that user still succeeds. *)
Theorem deactivated_user_login_refused_refresh_allowed id tid db u lreq lenv renv token :
  users db !! id = Some u -> user_id u = id -> user_tenantId u = tid ->
  (forall k v, users db !! k = Some v -> email v = email u -> k = id) ->
  login_email lreq = email u ->
  bcrypt_compare lenv (login_password lreq) (password u) = Some true ->
  jwt_verify renv token = Some id ->
  exists u' db',
    deactivateUser id tid ADMIN db = (inr u', db') /\ isActive u' = false /\
    login lreq lenv db' = (inl (Unauthorized "Account is deactivated"), db') /\
    AuthService_refreshToken renv token db' = (inr (refreshed_access renv), db').
Proof.
  intros Hu Hid Ht Huniq He Hb Hj.
  rewrite (deactivateUser_run _ _ _ _ Hu Hid Ht).
  set (u' := apply_field u (F_isActive false)).
  assert (Hu' : email u' = email u /\ password u' = password u /\ isActive u' = false)
    by (destruct u; repeat split).
  destruct Hu' as (He' & Hp' & Ha').
  eexists _, _. split; [reflexivity|]. split; [exact Ha'|]. split.
  - unfold login. unfold bind at 1. rewrite validateUser_run. simpl.
    assert (Hf : find_row (fun v => (email v =? login_email lreq)%string)
                   (<[id := u']> (users db)) = Some u').
    { apply (find_row_unique _ _ id); [apply lookup_insert_eq|rewrite He', He; apply String.eqb_refl|].
      intros k' v' Hk' Hp. destruct (decide (k' = id)) as [->|Hne]; [reflexivity|].
      rewrite lookup_insert_ne in Hk' by congruence.
      apply String.eqb_eq in Hp. rewrite He in Hp. exact (Huniq k' v' Hk' Hp). }
    rewrite Hf, Hp', Hb, Ha'. reflexivity.
  - rewrite refreshToken_run, Hj. simpl. rewrite lookup_insert_eq. reflexivity.
Qed.

(** Filtering by [p && q] and by [p && r], with [r] the negation of [q], splits the elements kept by [p]. *)
Lemma length_filter_partition {A} (p q r : A -> bool) l :
  (forall x, r x = negb (q x)) ->
  List.length (List.filter (fun x => p x && q x) l) +
  List.length (List.filter (fun x => p x && r x) l) = List.length (List.filter p l).
Proof.
  intros Hr. induction l as [|x l IH]; [reflexivity|]. simpl. rewrite Hr.
  destruct (p x), (q x); simpl; lia.
Qed.

(** Filtering by [p && q] keeps at most the elements kept by [p]. *)
Lemma length_filter_and_le {A} (p q : A -> bool) l :
  List.length (List.filter (fun x => p x && q x) l) <= List.length (List.filter p l).
Proof.
  induction l as [|x l IH]; [reflexivity|]. simpl.
  destruct (p x), (q x); simpl; lia.
Qed.

(** [getUserStats] writes nothing; admins plus regular users equal all users of the tenant, and active users are at most all users. *)
Theorem getUserStats_consistent tid db :
  exists st, getUserStats tid db = (inr st, db) /\
    adminUsers st + regularUsers st = totalUsers st /\
    activeUsers st <= totalUsers st.
Proof.
  eexists. split; [reflexivity|]. simpl. split.
  - apply (length_filter_partition
             (fun kv : string * User => String.eqb (user_tenantId kv.2) tid)
             (fun kv => bool_decide (role kv.2 = ADMIN))
             (fun kv => bool_decide (role kv.2 = USER))).
    intros [k [? ? ? ? [|] ? ? ?]]; reflexivity.
  - apply (length_filter_and_le
             (fun kv : string * User => String.eqb (user_tenantId kv.2) tid)
             (fun kv => isActive kv.2)).
Qed.

(** [findByTenant] returns the only subscription of the tenant. *)
Lemma subscription_findByTenant_unique tid db k s :
  subscriptions db !! k = Some s -> sub_tenantId s = tid ->
  (forall k' s', subscriptions db !! k' = Some s' -> sub_tenantId s' = tid -> k' = k) ->
  subscription_findByTenant tid db = (inr (Some s), db).
Proof.
  intros Hk Ht Hu. unfold subscription_findByTenant, gets. do 3 f_equal.
  apply (find_row_unique _ _ k); [exact Hk|rewrite Ht; apply String.eqb_refl|].
  intros k' s' Hk' Hp. apply String.eqb_eq in Hp. exact (Hu k' s' Hk' Hp).
Qed.

(** [handleSubscriptionCreated] ignores an event without tenant or plan metadata; otherwise it records the Stripe id, plan and mapped status on the tenant's subscription and moves the tenant to the plan with that plan's settings, keeping its name and slug. *)
Theorem subscription_created_sets_plan ss db k s t p :
  (metadata_tenantId ss = EmptyString \/ metadata_plan ss = EmptyString ->
     handleSubscriptionCreated ss db = (inr tt, db)) /\
  (metadata_tenantId ss <> EmptyString -> parse_plan (metadata_plan ss) = Some p ->
   subscriptions db !! k = Some s -> sub_id s = k -> sub_tenantId s = metadata_tenantId ss ->
   (forall k' s', subscriptions db !! k' = Some s' ->
                  sub_tenantId s' = metadata_tenantId ss -> k' = k) ->
   tenants db !! metadata_tenantId ss = Some t ->
   exists db' s' t',
     handleSubscriptionCreated ss db = (inr tt, db') /\
     subscriptions db' !! k = Some s' /\
     stripeSubscriptionId s' = Some (ss_id ss) /\ sub_plan s' = p /\
     status s' = mapStripeStatus (ss_status ss) /\
     tenants db' !! metadata_tenantId ss = Some t' /\
     plan t' = p /\ settings t' = plan_settings p /\
     tenant_name t' = tenant_name t /\ slug t' = slug t).
Proof.
  split.
  - intros [H|H]; unfold handleSubscriptionCreated; rewrite H; simpl;
      [reflexivity|destruct (String.eqb _ _); reflexivity].
  - intros Htid Hp Hk Hid Hst Hu Ht.
    unfold handleSubscriptionCreated.
    destruct (String.eqb_spec (metadata_tenantId ss) "") as [E|_]; [congruence|].
    destruct (String.eqb_spec (metadata_plan ss) "") as [E|_];
      [rewrite E in Hp; discriminate|].
    simpl. rewrite Hp.
    rewrite (bind_ok _ _ _ _ _ (subscription_findByTenant_unique _ _ _ _ Hk Hst Hu)).
    assert (Hk' : subscriptions db !! sub_id s = Some s) by (rewrite Hid; exact Hk).
    rewrite (bind_ok _ _ _ _ _ (subscription_update_found _ _ _ _ Hk')).
    match goal with |- context [bind (updatePlan _ _) _ ?d] =>
      assert (Ht1 : tenants d !! metadata_tenantId ss = Some t) by exact Ht end.
    rewrite (bind_ok _ _ _ _ _ (updatePlan_found _ p _ _ Ht1)).
    match goal with |- context [bind (updateSettings _ _) _ ?d] =>
      assert (Ht2 : tenants d !! metadata_tenantId ss = Some (with_plan p t))
        by (simpl; apply lookup_insert_eq) end.
    rewrite (bind_ok _ _ _ _ _ (updateSettings_found _ _ _ _ Ht2)).
    eexists _, _, _. split; [reflexivity|].
    split; [simpl; rewrite Hid; apply lookup_insert_eq|].
    split; [reflexivity|]. split; [reflexivity|]. split; [reflexivity|].
    split; [simpl; apply lookup_insert_eq|].
    repeat split.
Qed.

(** [handleSubscriptionUpdated] rewrites only the status and billing period of the matching subscription: its plan, tenant, customer and Stripe ids and every tenant row are kept. *)
Theorem subscription_updated_keeps_plan ss db k s :
  subscriptions db !! k = Some s -> sub_id s = k ->
  stripeSubscriptionId s = Some (ss_id ss) ->
  (forall k' s', subscriptions db !! k' = Some s' ->
                 stripeSubscriptionId s' = Some (ss_id ss) -> k' = k) ->
  exists db' s',
    handleSubscriptionUpdated ss db = (inr tt, db') /\
    subscriptions db' = <[k := s']> (subscriptions db) /\
    status s' = mapStripeStatus (ss_status ss) /\
    currentPeriodStart s' = (current_period_start ss * 1000)%Z /\
    currentPeriodEnd s' = (current_period_end ss * 1000)%Z /\
    cancelAtPeriodEnd s' = cancel_at_period_end ss /\
    sub_plan s' = sub_plan s /\ sub_tenantId s' = sub_tenantId s /\
    stripeCustomerId s' = stripeCustomerId s /\
    stripeSubscriptionId s' = stripeSubscriptionId s /\
    tenants db' = tenants db.
Proof.
  intros Hk Hid Hsid Hu.
  assert (Hfind : subscription_findByStripeId (ss_id ss) db = (inr (Some s), db)).
  { unfold subscription_findByStripeId, gets. do 3 f_equal.
    apply (find_row_unique _ _ k); [exact Hk| |].
    - apply bool_decide_eq_true. exact Hsid.
    - intros k' s' Hk' Hp. apply bool_decide_eq_true in Hp. exact (Hu k' s' Hk' Hp). }
  unfold handleSubscriptionUpdated. rewrite (bind_ok _ _ _ _ _ Hfind).
  assert (Hk' : subscriptions db !! sub_id s = Some s) by (rewrite Hid; exact Hk).
  rewrite (bind_ok _ _ _ _ _ (subscription_update_found _ _ _ _ Hk')).
  eexists _, _. split; [reflexivity|]. simpl. rewrite Hid.
  split; [reflexivity|]. repeat split.
Qed.

(** [updateByTenant] updates the only subscription of the tenant. *)
Lemma subscription_updateByTenant_unique tid f db k s :
  subscriptions db !! k = Some s -> sub_id s = k -> sub_tenantId s = tid ->
  (forall k' s', subscriptions db !! k' = Some s' -> sub_tenantId s' = tid -> k' = k) ->
  subscription_updateByTenant tid f db = (inr (f s), set_subscriptions <[k := f s]> db).
Proof.
  intros Hk Hid Ht Hu. unfold subscription_updateByTenant.
  rewrite (bind_ok _ _ _ _ _ (subscription_findByTenant_unique _ _ _ _ Hk Ht Hu)).
  rewrite <- Hid. apply subscription_update_found. rewrite Hid. exact Hk.
Qed.

(** [createCheckoutSession] refuses the free plan without writing. For a paid plan and a subscription without customer, a Stripe customer created before the checkout session fails stays recorded on the subscription, and a later call reuses it without creating another. *)
Theorem checkout_customer_kept_on_failure tid p env env' db k s t cid :
  createCheckoutSession tid FREE env db =
    (inl (BadRequest "Cannot create checkout session for free plan"), db) /\
  (p <> FREE ->
   subscriptions db !! k = Some s -> sub_id s = k -> sub_tenantId s = tid ->
   (forall k' s', subscriptions db !! k' = Some s' -> sub_tenantId s' = tid -> k' = k) ->
   stripeCustomerId s = None -> tenants db !! tid = Some t ->
   customers_create env (String.append "admin@" (String.append (slug t) ".com")) (tenant_name t)
     = Some cid ->
   cid <> EmptyString ->
   checkout_sessions_create env cid = None ->
   let db' := set_subscriptions <[k := with_customer cid s]> db in
   createCheckoutSession tid p env db = (inl (BadRequest "Failed to create checkout session"), db') /\
   forall url, checkout_sessions_create env' cid = Some url ->
     createCheckoutSession tid p env' db' = (inr url, db')).
Proof.
  split; [reflexivity|].
  intros Hp Hk Hid Ht Hu Hnone Htn Hc Hne Hs db'.
  assert (Hpf : bool_decide (p = FREE) = false) by (apply bool_decide_eq_false; exact Hp).
  split.
  - unfold createCheckoutSession. rewrite Hpf.
    rewrite (bind_ok _ _ _ _ _ (subscription_findByTenant_unique _ _ _ _ Hk Ht Hu)).
    rewrite Hnone.
    assert (Hcust : createCustomer tid (String.append "admin@" (String.append (slug t) ".com"))
                      (tenant_name t) env db = (inr cid, db')).
    { unfold createCustomer. rewrite Hc.
      apply try_catch_ok.
      rewrite (bind_ok _ _ _ _ _ (subscription_updateByTenant_unique _ _ _ _ _ Hk Hid Ht Hu)).
      reflexivity. }
    unfold bind at 1. unfold bind at 1. unfold gets. rewrite Ht, Htn.
    rewrite Hcust. unfold try_catch. rewrite Hs. reflexivity.
  - intros url Hurl.
    assert (Hk' : subscriptions db' !! k = Some (with_customer cid s))
      by (unfold db'; simpl; apply lookup_insert_eq).
    assert (Hu' : forall k' s', subscriptions db' !! k' = Some s' -> sub_tenantId s' = tid -> k' = k).
    { intros k' s' Hk'' Hts. destruct (decide (k' = k)) as [->|Hne']; [reflexivity|].
      unfold db' in Hk''. simpl in Hk''. rewrite lookup_insert_ne in Hk'' by congruence.
      exact (Hu k' s' Hk'' Hts). }
    unfold createCheckoutSession. rewrite Hpf.
    rewrite (bind_ok _ _ _ _ _ (subscription_findByTenant_unique _ _ _ _ Hk' Ht Hu')).
    simpl. destruct cid as [|c cs]; [congruence|].
    unfold bind, ret, try_catch. rewrite Hurl. reflexivity.
Qed.

(** Applying tenant fields never changes the tenant id. *)
Lemma fold_tenant_fields_id data t :
  tenant_id (fold_left apply_tenant_field data t) = tenant_id t.
Proof.
  revert t; induction data as [|f data IH]; intros t; [reflexivity|]. simpl.
  rewrite IH. destruct t, f; reflexivity.
Qed.

(** [updateTenant] refuses a slug held by another tenant with a unique violation and no write; otherwise it stores the updated tenant under its id, which it keeps. *)
Theorem updateTenant_slug_unique id data db t :
  tenants db !! id = Some t ->
  let t' := fold_left apply_tenant_field data t in
  ((exists k t2, tenants db !! k = Some t2 /\ tenant_id t2 <> id /\ slug t2 = slug t') ->
     updateTenant id data db = (inl PrismaUniqueViolation, db)) /\
  ((forall k t2, tenants db !! k = Some t2 -> tenant_id t2 <> id -> slug t2 <> slug t') ->
     updateTenant id data db = (inr t', set_tenants <[id := t']> db) /\
     tenant_id t' = tenant_id t).
Proof.
  intros Ht t'.
  unfold updateTenant, TenantsService_findById, tenant_findUnique, tenant_update_data,
    bind, gets, throw, modify, ret; simpl. rewrite Ht. simpl. rewrite Ht. fold t'.
  split.
  - intros (k & t2 & Hk & Hid & Hs).
    destruct (find_row _ (tenants db)) as [x|] eqn:E; [reflexivity|].
    pose proof (find_row_none _ _ E k t2 Hk) as Hp. simpl in Hp.
    rewrite Hs, String.eqb_refl in Hp. simpl in Hp.
    destruct (String.eqb_spec (tenant_id t2) id); [congruence|discriminate].
  - intros Hno. split; [|apply fold_tenant_fields_id].
    destruct (find_row _ (tenants db)) as [x|] eqn:E; [|reflexivity].
    apply find_row_some in E as (k & Hk & Hp). apply andb_true_iff in Hp as [Hs Hid].
    apply String.eqb_eq in Hs. apply negb_true_iff, String.eqb_neq in Hid.
    exfalso. exact (Hno k x Hk Hid Hs).
Qed.

(** ** Witnesses of the further properties *)

Lemma getTenantUsage_report_witness :
  exists u, getTenantUsage "t1" "2026-10" (db_t1 100 10) = (inr u, db_t1 100 10) /\
    currentMonth u = "2026-10" /\
    tu_aiCreditsUsed u = usage_credits (db_t1 100 10) "t1" "2026-10" /\
    tu_apiRequestsCount u = usage_requests (db_t1 100 10) "t1" "2026-10" /\
    0 < tu_aiCreditsLimit u /\ 0 < tu_apiRateLimit u /\
    (forall l, aiCreditsLimit (settings (tenant_t1 100)) = Some l -> 0 < l ->
       tu_aiCreditsLimit u = l) /\
    (forall l, apiRateLimit (settings (tenant_t1 100)) = Some l -> 0 < l ->
       tu_apiRateLimit u = l).
Proof. apply (getTenantUsage_report "t1" "2026-10" (db_t1 100 10) (tenant_t1 100)). reflexivity. Defined.


Lemma answer_success_charges_fixed_cost_witness :
  exists db' r,
    answerQuestion "t1" "u1" sample_qa (call_env (CompletionResolves (Some "ten euros")))
      (db_t1 100 10) =
      (inr {| answer := default "" (Some "ten euros");
              confidence := calculateConfidence (default "" (Some "ten euros"));
              sourceText := extractSourceText (documentText sample_qa) (default "" (Some "ten euros"));
              qa_creditsUsed := 3 |}, db') /\
    aiRequests db' !! "req-1" = Some r /\
    ar_status r = COMPLETED /\ output r = Some (default "" (Some "ten euros")) /\
    creditsUsed r = 3 /\
    usage_credits db' "t1" "2026-10" = usage_credits (db_t1 100 10) "t1" "2026-10" + 3 /\
    usage_requests db' "t1" "2026-10" = usage_requests (db_t1 100 10) "t1" "2026-10" + 1 /\
    (forall k, k <> ("t1", "2026-10") -> usages db' !! k = usages (db_t1 100 10) !! k).
Proof.
  apply (answer_success_charges_fixed_cost "t1" "u1" sample_qa
           (call_env (CompletionResolves (Some "ten euros"))) (db_t1 100 10) (Some "ten euros"));
    reflexivity.
Defined.

Lemma login_success_guarantees_witness :
  let r := {| auth_user := user_ann; auth_tenant := tenant_t1 100;
              accessToken := "access"; refreshToken := "refresh" |} in
  login ann_login login_env db_team = (inr r, db_team) /\
  (db_team = db_team /\
   (exists k, users db_team !! k = Some (auth_user r)) /\
   email (auth_user r) = login_email ann_login /\
   bcrypt_compare login_env (login_password ann_login) (password (auth_user r)) = Some true /\
   isActive (auth_user r) = true /\
   tenants db_team !! user_tenantId (auth_user r) = Some (auth_tenant r) /\
   tenant_isActive (auth_tenant r) = true).
Proof.
  intros r. split; [reflexivity|].
  apply (login_success_guarantees ann_login login_env db_team r db_team). reflexivity.
Defined.

Lemma register_then_login_witness :
  match register (acme_request "Acme Inc" "ann@acme.test") (reg_env "1") empty_db with
  | (inr r, db') =>
      login ann_login login_env db' =
        (inr {| auth_user := auth_user r; auth_tenant := auth_tenant r;
                accessToken := "access"; refreshToken := "refresh" |}, db')
  | (inl _, _) => False
  end.
Proof.
  destruct (register (acme_request "Acme Inc" "ann@acme.test") (reg_env "1") empty_db)
    as [[e|r] db'] eqn:E; [vm_compute in E; discriminate|].
  apply (register_then_login (acme_request "Acme Inc" "ann@acme.test") (reg_env "1") login_env
           empty_db r db' E).
  reflexivity.
Defined.

Lemma deactivated_user_login_refused_refresh_allowed_witness :
  exists u' db',
    deactivateUser "u1" "t1" ADMIN db_team = (inr u', db') /\ isActive u' = false /\
    login ann_login login_env db' = (inl (Unauthorized "Account is deactivated"), db') /\
    AuthService_refreshToken (refresh_env "u1") "rt" db' = (inr (refreshed_access (refresh_env "u1")), db').
Proof.
  apply (deactivated_user_login_refused_refresh_allowed "u1" "t1" db_team user_ann ann_login
           login_env (refresh_env "u1") "rt"); try reflexivity.
  intros k v Hk He. simpl in Hk.
  apply lookup_insert_Some in Hk as [[<- <-]|[_ Hk]]; [discriminate He|].
  apply lookup_singleton_Some in Hk as [<- _]. reflexivity.
Defined.

Lemma subscription_created_sets_plan_witness :
  exists db' s' t',
    handleSubscriptionCreated (created_sub "t1" "pro") db_free = (inr tt, db') /\
    subscriptions db' !! "s1" = Some s' /\
    stripeSubscriptionId s' = Some "sub_5" /\ sub_plan s' = PRO /\
    status s' = mapStripeStatus "trialing" /\
    tenants db' !! "t1" = Some t' /\
    plan t' = PRO /\ settings t' = plan_settings PRO /\
    tenant_name t' = tenant_name (tenant_t1 100) /\ slug t' = slug (tenant_t1 100).
Proof.
  destruct (subscription_created_sets_plan (created_sub "t1" "pro") db_free "s1" sub_free_nocus
              (tenant_t1 100) PRO) as [_ H].
  apply H; try reflexivity; [discriminate|].
  intros k' s' Hk' _. simpl in Hk'. apply lookup_singleton_Some in Hk' as [<- _]. reflexivity.
Defined.

Lemma subscription_updated_keeps_plan_witness :
  exists db' s',
    handleSubscriptionUpdated deleted_sub db_pro = (inr tt, db') /\
    subscriptions db' = <["s1" := s']> (subscriptions db_pro) /\
    status s' = mapStripeStatus "canceled" /\
    currentPeriodStart s' = (0 * 1000)%Z /\ currentPeriodEnd s' = (2592 * 1000)%Z /\
    cancelAtPeriodEnd s' = false /\
    sub_plan s' = PRO /\ sub_tenantId s' = "t1" /\
    stripeCustomerId s' = Some "cus_1" /\ stripeSubscriptionId s' = Some "sub_9" /\
    tenants db' = tenants db_pro.
Proof.
  apply (subscription_updated_keeps_plan deleted_sub db_pro "s1" sub_pro);
    [reflexivity|reflexivity|reflexivity|].
  intros k' s' Hk' _. simpl in Hk'. apply lookup_singleton_Some in Hk' as [<- _]. reflexivity.
Defined.

Lemma checkout_customer_kept_on_failure_witness :
  let db' := set_subscriptions <["s1" := with_customer "cus_7" sub_free_nocus]> db_free in
  createCheckoutSession "t1" PRO stripe_checkout_down db_free =
    (inl (BadRequest "Failed to create checkout session"), db') /\
  createCheckoutSession "t1" PRO stripe_checkout_up db' =
    (inr "https://checkout.stripe.test/cus_7", db').
Proof.
  intros db'.
  destruct (checkout_customer_kept_on_failure "t1" PRO stripe_checkout_down stripe_checkout_up
              db_free "s1" sub_free_nocus (tenant_t1 100) "cus_7") as [_ H].
  destruct H as [H1 H2]; try reflexivity; try discriminate.
  - intros k' s' Hk' _. simpl in Hk'. apply lookup_singleton_Some in Hk' as [<- _]. reflexivity.
  - split; [exact H1|]. apply H2. reflexivity.
Defined.

Lemma updateTenant_slug_unique_witness :
  let t' := fold_left apply_tenant_field [F_t_slug "beta"] (tenant_t1 100) in
  ((exists k t2, tenants (db_t1 100 10) !! k = Some t2 /\ tenant_id t2 <> "t1" /\ slug t2 = slug t') ->
     updateTenant "t1" [F_t_slug "beta"] (db_t1 100 10) = (inl PrismaUniqueViolation, db_t1 100 10)) /\
  ((forall k t2, tenants (db_t1 100 10) !! k = Some t2 -> tenant_id t2 <> "t1" -> slug t2 <> slug t') ->
     updateTenant "t1" [F_t_slug "beta"] (db_t1 100 10) =
       (inr t', set_tenants <["t1" := t']> (db_t1 100 10)) /\
     tenant_id t' = tenant_id (tenant_t1 100)).
Proof.
  apply (updateTenant_slug_unique "t1" [F_t_slug "beta"] (db_t1 100 10) (tenant_t1 100)).
  reflexivity.
Defined.
